(** * SimpleStage: the inventory API and the inventory dashboard

    A shallow embedding of [src/inventory_api.js] (the Express handlers
    over the [items] table) and of [src/index.tsx] (the React dashboard:
    its state, its event handlers and its search filter), followed by the
    properties of the two that the specification states.

    Conventions of the embedding.
    - A JavaScript number is an integer of [Z]: quantities and identities
      are integers in the data model; fractions, NaN and the infinities
      are outside the model.
    - A JavaScript string is a [string] whose characters are the UTF-16
      code units U+0000 to U+00FF (ASCII and the Latin-1 supplement);
      strings with other code units are outside the model.  On these
      strings [toLowerCase] works unit by unit: it lowers A to Z, and the
      letters U+00C0 to U+00DE other than the multiplication sign U+00D7,
      to the unit 32 further, and leaves every other unit as it is (the
      context rule of the final sigma and the mappings that change the
      length concern units above U+00FF).
    - An optional property ([missing?], [damaged?], [notes?]) is an
      [option]: [None] stands for a property that is absent, [undefined]
      or [null] (SQL NULL in a stored row).
    - An object of the shape [Item] is a pair of its [id] and of its eight
      other properties, the record [Fields]; [Omit<Item, "id">] is
      [Fields].  A spread such as [{ ...editingItem, name: v }] is the
      corresponding setter.
    - A request body has the properties of [Omit<Item, "id">]: the five
      plain fields and the three optional ones; the route parameter [:id]
      is the integer it denotes.  JavaScript gives a destructuring default
      to a property that is absent or undefined; a property explicitly
      null is not a value of the types [boolean | undefined] and
      [string | undefined] of the interface.
    - An await on [pool.query] or on [fetch] is a call that returns the
      settled outcome: a resolved value or the rejection.  The handlers of
      the dashboard run one after the other; interleavings of two pending
      requests are outside the model.
    - The routes [/inventory_movements] and [/orders], the logs the
      service writes on its own console, and the markup of the page are
      not embedded: no property below is about them. *)

From Stdlib Require Import ZArith List String Ascii Bool Lia Permutation.
From ExtLib Require Import Structures.Monad Structures.MonadExc.
Import ListNotations.
Import MonadNotation.

Local Open Scope string_scope.
Local Open Scope list_scope.
Local Open Scope Z_scope.
Local Open Scope monad_scope.

(* ===================================================================== *)
(** * The data model: [interface Item] of index.tsx *)
(* ===================================================================== *)

(** The eight properties of an item other than its identity: the columns
    that [PUT /items/:id] rewrites and the shape of the dashboard's
    new-item draft ([Omit<Item, "id">]). *)
Record Fields : Type := mkFields {
  name : string;
  description : string;
  barcode : string;
  quantity : Z;
  photo_url : string;
  missing : option bool;
  damaged : option bool;
  notes : option string
}.

(** [interface Item]: the identity and the eight other properties. *)
Record Item : Type := mkItem {
  id : Z;
  fields : Fields
}.

(** Property updates of an object spread, [{ ...f, name: v }] and so on. *)
Definition set_name (v : string) (f : Fields) : Fields :=
  mkFields v (description f) (barcode f) (quantity f) (photo_url f)
           (missing f) (damaged f) (notes f).

Definition set_description (v : string) (f : Fields) : Fields :=
  mkFields (name f) v (barcode f) (quantity f) (photo_url f)
           (missing f) (damaged f) (notes f).

Definition set_barcode (v : string) (f : Fields) : Fields :=
  mkFields (name f) (description f) v (quantity f) (photo_url f)
           (missing f) (damaged f) (notes f).

Definition set_quantity (v : Z) (f : Fields) : Fields :=
  mkFields (name f) (description f) (barcode f) v (photo_url f)
           (missing f) (damaged f) (notes f).

Definition set_photo_url (v : string) (f : Fields) : Fields :=
  mkFields (name f) (description f) (barcode f) (quantity f) v
           (missing f) (damaged f) (notes f).

Definition set_missing (v : option bool) (f : Fields) : Fields :=
  mkFields (name f) (description f) (barcode f) (quantity f) (photo_url f)
           v (damaged f) (notes f).

Definition set_damaged (v : option bool) (f : Fields) : Fields :=
  mkFields (name f) (description f) (barcode f) (quantity f) (photo_url f)
           (missing f) v (notes f).

Definition set_notes (v : option string) (f : Fields) : Fields :=
  mkFields (name f) (description f) (barcode f) (quantity f) (photo_url f)
           (missing f) (damaged f) v.

(** The same updates on an [Item]: the identity is kept. *)
Definition with_fields (g : Fields -> Fields) (i : Item) : Item :=
  mkItem (id i) (g (fields i)).

(** JavaScript truthiness of an optional boolean: [undefined], [null] and
    [false] are falsy. *)
Definition truthy (b : option bool) : bool :=
  match b with
  | Some true => true
  | _ => false
  end.

(** At most one of the two status flags is set. *)
Definition exclusive (f : Fields) : bool :=
  negb (truthy (missing f) && truthy (damaged f)).

(* ===================================================================== *)
(** * The API service: inventory_api.js *)
(* ===================================================================== *)

Module Api.

(** The statements the handlers send to the pool, with their positional
    parameters. *)
Inductive Sql : Type :=
| SelectItems
    (* SELECT * FROM items *)
| UpdateItem (params : Fields) (id9 : Z)
    (* UPDATE items SET name = $1, description = $2, barcode = $3,
       quantity = $4, photo_url = $5, missing = $6, damaged = $7,
       notes = $8 WHERE id = $9 RETURNING * *)
| UpdateQuantity (delta : Z) (id2 : Z)
    (* UPDATE items SET quantity = quantity + $1 WHERE id = $2 RETURNING * *)
| InsertItem (params : Fields).
    (* INSERT INTO items (name, description, barcode, quantity, photo_url,
       missing, damaged, notes) VALUES ($1, ..., $8) RETURNING * *)

(** The rows of the [items] table.  The list gives the rows an order only
    so that a row can be named by its position; the statements of the
    source have no ORDER BY, and the order in which the store lists its
    rows is not part of what is modelled. *)
Definition Table : Type := list Item.

(** Modelled from the spec: the schema of the [items] table and the
    identity it assigns are not in src/ (section 3 of the specification: the
    identity is a unique integer, assigned by the store on creation).  The
    identity of a new row is one more than the largest identity in the
    table, and at least 1. *)
Definition next_id (t : Table) : Z :=
  1 + fold_right (fun r m => Z.max (id r) m) 0 t.

(** [SET quantity = quantity + $1] on one row. *)
Definition add_quantity (delta : Z) (r : Item) : Item :=
  with_fields (fun f => set_quantity (quantity f + delta) f) r.

(** What a statement does to the table and the rows its [RETURNING *]
    (or its [SELECT]) yields. *)
Definition exec_sql (q : Sql) (t : Table) : list Item * Table :=
  match q with
  | SelectItems => (t, t)
  | UpdateItem params i =>
      let hit := fun r : Item => id r =? i in
      let upd := fun r : Item => mkItem (id r) params in
      (map upd (filter hit t),
       map (fun r => if hit r then upd r else r) t)
  | UpdateQuantity delta i =>
      let hit := fun r : Item => id r =? i in
      let upd := add_quantity delta in
      (map upd (filter hit t),
       map (fun r => if hit r then upd r else r) t)
  | InsertItem params =>
      let row := mkItem (next_id t) params in
      ([row], t ++ [row])
  end.

(** The store behind [pool]: the table, and whether the store is failing
    (with the message of the error its driver then raises). *)
Record Database : Type := mkDatabase {
  table : Table;
  outage : option string
}.

(** A store that executes statements. *)
Definition online (t : Table) : Database := mkDatabase t None.

(** The settled outcome of [await pool.query(...)]. *)
Inductive QueryResult : Type :=
| Resolved (rows : list Item)
| Rejected (message : string).

(** Modelled from the spec: [pool] is the connection of ./db, which is not
    in src/.  A query either executes on the table or, on a store failure,
    rejects with the driver's message and leaves the table as it is. *)
Definition pool_query (q : Sql) (db : Database) : QueryResult * Database :=
  match outage db with
  | Some message => (Rejected message, db)
  | None =>
      let (rows, t') := exec_sql q (table db) in
      (Resolved rows, mkDatabase t' None)
  end.

(** The JSON values the handlers send back. *)
Inductive Json : Type :=
| JsonItems (rows : list Item)
| JsonItem (row : Item)
| JsonError (error : string)
| JsonSuccess (item : option Item)
    (* { success: true, item }: a property that is undefined is dropped by
       the serialisation *)
| JsonUndefined.
    (* res.json(undefined): no value to serialise *)

Record Response : Type := mkResponse {
  status : Z;
  json : Json
}.

(** [res.json(v)] answers with status 200; [res.status(c).json(v)] with
    status [c]. *)
Definition res_json (v : Json) : Response := mkResponse 200 v.
Definition res_status_json (c : Z) (v : Json) : Response := mkResponse c v.

(** The catch block every handler has: the error is logged on the server
    and answered with status 500. *)
Definition internal_error (message : string) : Response :=
  res_status_json 500 (JsonError message).

(** [app.get('/items', ...)] *)
Definition get_items (db : Database) : Response * Database :=
  let (result, db') := pool_query SelectItems db in
  match result with
  | Resolved rows => (res_json (JsonItems rows), db')
  | Rejected message => (internal_error message, db')
  end.

(** [app.put('/items/:id', ...)]: [body] is the eight properties the
    handler reads from [req.body]. *)
Definition put_item (i : Z) (body : Fields) (db : Database)
  : Response * Database :=
  let (result, db') := pool_query (UpdateItem body i) db in
  match result with
  | Resolved rows =>
      match rows with
      | [] => (res_status_json 404 (JsonError "Item not found"), db')
      | row :: _ => (res_json (JsonItem row), db')
      end
  | Rejected message => (internal_error message, db')
  end.

(** [app.post("/items/:id/update-quantity", ...)]: [delta] is the
    [quantity] property of [req.body]. *)
Definition update_quantity (i : Z) (delta : Z) (db : Database)
  : Response * Database :=
  let (result, db') := pool_query (UpdateQuantity delta i) db in
  match result with
  | Resolved rows => (res_json (JsonSuccess (hd_error rows)), db')
  | Rejected message => (internal_error message, db')
  end.

(** The defaults of the destructuring in [POST /items]:
    [missing = false], [damaged = false] and the empty string for [notes]. *)
Definition or_default {A : Type} (d : A) (v : option A) : option A :=
  match v with
  | Some x => Some x
  | None => Some d
  end.

Definition with_defaults (body : Fields) : Fields :=
  mkFields (name body) (description body) (barcode body) (quantity body)
           (photo_url body)
           (or_default false (missing body))
           (or_default false (damaged body))
           (or_default EmptyString (notes body)).

(** [app.post('/items', ...)] *)
Definition post_item (body : Fields) (db : Database) : Response * Database :=
  let (result, db') := pool_query (InsertItem (with_defaults body)) db in
  match result with
  | Resolved rows =>
      match rows with
      | row :: _ => (res_status_json 201 (JsonItem row), db')
      | [] => (res_status_json 201 JsonUndefined, db')
      end
  | Rejected message => (internal_error message, db')
  end.

End Api.

(* ===================================================================== *)
(** * JavaScript strings: [toLowerCase] and [includes] *)
(* ===================================================================== *)

Module Js.

(** An upper-case letter among the code units U+0000 to U+00FF: A to Z
    (65 to 90), and the letters of the Latin-1 supplement from A with
    grave to O with diaeresis (192 to 214) and from O with stroke to
    Thorn (216 to 222); 215 is the multiplication sign. *)
Definition is_upper (c : ascii) : bool :=
  let n := N_of_ascii c in
  (((65 <=? n) && (n <=? 90)) || ((192 <=? n) && (n <=? 214))
   || ((216 <=? n) && (n <=? 222)))%N.

(** The lower-case form of a code unit: 32 further for an upper-case
    letter, the unit itself otherwise. *)
Definition lower_unit (c : ascii) : ascii :=
  if is_upper c then ascii_of_N (N_of_ascii c + 32) else c.

(** [s.toLowerCase()] *)
Fixpoint toLowerCase (s : string) : string :=
  match s with
  | EmptyString => EmptyString
  | String c s' => String (lower_unit c) (toLowerCase s')
  end.

(** [s.includes(q)]: [q] occurs in [s] at some position. *)
Fixpoint includes (s q : string) : bool :=
  String.prefix q s ||
  match s with
  | EmptyString => false
  | String _ s' => includes s' q
  end.

End Js.

(* ===================================================================== *)
(** * The dashboard: index.tsx *)
(* ===================================================================== *)

Module Dashboard.

(** ["missing" | "damaged"] *)
Inductive StatusType : Type := Missing | Damaged.

(** The four [useState] cells of [InventoryDashboard]. *)
Record State : Type := mkState {
  items : list Item;
  search : string;
  editingItem : option Item;
  newItem : Fields
}.

(** The draft a new item starts from, and is reset to after a create. *)
Definition emptyDraft : Fields :=
  mkFields EmptyString EmptyString EmptyString 0 EmptyString
           (Some false) (Some false) (Some EmptyString).

Definition initialState : State := mkState [] EmptyString None emptyDraft.

(** The requests the dashboard sends: method, path and JSON body. *)
Inductive Request : Type :=
| GetItems
    (* fetch("http://localhost:5000/items") *)
| PutItem (i : Z) (body : Item)
    (* fetch(`http://localhost:5000/items/${updatedItem.id}`,
             { method: "PUT", body: JSON.stringify(updatedItem) }) *)
| PostItems (body : Fields).
    (* fetch("http://localhost:5000/items",
             { method: "POST", body: JSON.stringify(newItem) }) *)

(** The settled outcome of [await fetch(...)]: a rejection (the network
    failed), or a response with its status, its body as text and, when
    the body is JSON of the shape the caller reads, that value. *)
Inductive Settled (A : Type) : Type :=
| Rejects (reason : string)
| Resolves (status : Z) (text : string) (data : option A).
Arguments Rejects {A} reason.
Arguments Resolves {A} status text data.

(** What the network answers to each request of the dashboard; [N] is
    the state of whatever is on the other side. *)
Record Network (N : Type) : Type := mkNetwork {
  fetch_get_items : N -> Settled (list Item) * N;
  fetch_put_item : Z -> Item -> N -> Settled Item * N;
  fetch_post_items : Fields -> N -> Settled Item * N
}.
Arguments fetch_get_items {N} _ _.
Arguments fetch_put_item {N} _ _ _ _.
Arguments fetch_post_items {N} _ _ _.

(** What a handler throws. *)
Inductive Thrown : Type :=
| HttpError (status : Z)
    (* new Error(`HTTP error! Status: ${res.status}`) *)
| FetchRejection (reason : string)
| JsonRejection.
    (* res.json() on a body that is not the JSON value read *)

(** A call of [console.error(label, detail)]. *)
Inductive Detail : Type :=
| ErrorText (text : string)
| ErrorThrown (e : Thrown).

Definition LogEntry : Type := (string * Detail)%type.

(** The response object [res]. *)
Record Res (A : Type) : Type := mkRes {
  res_status : Z;
  res_body_text : string;
  res_body_json : option A
}.
Arguments mkRes {A} _ _ _.
Arguments res_status {A} _.
Arguments res_body_text {A} _.
Arguments res_body_json {A} _.

(** [res.ok]: the status is in the range 200 to 299. *)
Definition ok {A : Type} (res : Res A) : bool :=
  (200 <=? res_status res) && (res_status res <=? 299).

Section Client.

Context {N : Type} (network : Network N).

(** Everything a handler can read or change: the component's state, the
    diagnostic channel, the requests sent so far and the other side of
    the network. *)
Record World : Type := mkWorld {
  ui : State;
  console : list LogEntry;
  sent : list Request;
  net : N
}.

(** A handler body: it ends normally or by throwing, and the effects it
    had before throwing stay. *)
Definition Client (A : Type) : Type := World -> (Thrown + A) * World.

#[local] Instance Monad_Client : Monad Client := {|
  ret := fun A (a : A) w => (inr a, w);
  bind := fun A B (c : Client A) (k : A -> Client B) w =>
            match c w with
            | (inl e, w') => (inl e, w')
            | (inr a, w') => k a w'
            end
|}.

(** [throw] and [try { ... } catch (error) { ... }]. *)
#[local] Instance Exception_Client : MonadExc Thrown Client := {|
  raise := fun A (e : Thrown) w => (inl e, w);
  catch := fun A (c : Client A) (h : Thrown -> Client A) w =>
             match c w with
             | (inl e, w') => h e w'
             | (inr a, w') => (inr a, w')
             end
|}.

Definition read : Client State := fun w => (inr (ui w), w).

Definition modify (g : State -> State) : Client unit :=
  fun w => (inr tt, mkWorld (g (ui w)) (console w) (sent w) (net w)).

(** The state setters, in their functional form [set(prev => ...)]. *)
Definition setItems (g : list Item -> list Item) : Client unit :=
  modify (fun s =>
            mkState (g (items s)) (search s) (editingItem s) (newItem s)).

Definition setSearch (v : string) : Client unit :=
  modify (fun s => mkState (items s) v (editingItem s) (newItem s)).

Definition setEditingItem (v : option Item) : Client unit :=
  modify (fun s => mkState (items s) (search s) v (newItem s)).

Definition setNewItem (v : Fields) : Client unit :=
  modify (fun s => mkState (items s) (search s) (editingItem s) v).

Definition console_error (label : string) (d : Detail) : Client unit :=
  fun w =>
    (inr tt, mkWorld (ui w) (console w ++ [(label, d)]) (sent w) (net w)).

(** [await fetch(...)]: the request goes out once; a rejection is
    thrown. *)
Definition fetch {A : Type} (req : Request) (call : N -> Settled A * N)
  : Client (Res A) :=
  fun w =>
    let (outcome, n') := call (net w) in
    let w' := mkWorld (ui w) (console w) (sent w ++ [req]) n' in
    match outcome with
    | Rejects reason => (inl (FetchRejection reason), w')
    | Resolves status text data => (inr (mkRes status text data), w')
    end.

(** [await res.text()] and [await res.json()]. *)
Definition res_text {A : Type} (res : Res A) : Client string :=
  ret (res_body_text res).

Definition res_json {A : Type} (res : Res A) : Client A :=
  match res_body_json res with
  | Some v => ret v
  | None => raise JsonRejection
  end.

(** The effect of [useEffect]: [fetchItems]. *)
Definition fetchItems : Client unit :=
  catch
    (res <- fetch GetItems (fetch_get_items network) ;;
     (if negb (ok res) then raise (HttpError (res_status res)) else ret tt) ;;
     data <- res_json res ;;
     setItems (fun _ => data))
    (fun error => console_error "Error fetching items:" (ErrorThrown error)).

(** [updateItem]: sends the record with PUT and, on success, puts the
    record of the response in the place of the item of the same id. *)
Definition updateItem (updatedItem : Item) : Client unit :=
  catch
    (res <- fetch (PutItem (id updatedItem) updatedItem)
                  (fetch_put_item network (id updatedItem) updatedItem) ;;
     (if negb (ok res) then
        errorText <- res_text res ;;
        console_error "Error updating item:" (ErrorText errorText) ;;
        raise (HttpError (res_status res))
      else ret tt) ;;
     updatedData <- res_json res ;;
     setItems (fun prevItems =>
                 map (fun item =>
                        if id item =? id updatedData then updatedData
                        else item)
                     prevItems) ;;
     setEditingItem None)
    (fun error => console_error "Error in updateItem:" (ErrorThrown error)).

(** [item[type]] and [{ ...f, [type]: v }]. *)
Definition flag (type : StatusType) (f : Fields) : option bool :=
  match type with
  | Missing => missing f
  | Damaged => damaged f
  end.

Definition set_flag (type : StatusType) (v : option bool) (f : Fields)
  : Fields :=
  match type with
  | Missing => set_missing v f
  | Damaged => set_damaged v f
  end.

(** The record [updatedItem] that [handleMissingOrDamaged] builds from
    the item it found (lines 78 to 86). *)
Definition toggled (type : StatusType) (item : Item) : Item :=
  let newValue := negb (truthy (flag type (fields item))) in
  with_fields
    (fun f =>
       set_notes (Some (if newValue then "Updated status" else EmptyString))
         (match type with
          | Missing => set_damaged (Some false)
          | Damaged => set_missing (Some false)
          end (set_flag type (Some newValue) f)))
    item.

(** [handleMissingOrDamaged(id, type)] *)
Definition handleMissingOrDamaged (i : Z) (type : StatusType) : Client unit :=
  s <- read ;;
  match find (fun item => id item =? i) (items s) with
  | None => ret tt
  | Some item => updateItem (toggled type item)
  end.

(** [addItem]: posts the draft and, on success, appends the record of
    the response and resets the draft. *)
Definition addItem : Client unit :=
  catch
    (s <- read ;;
     res <- fetch (PostItems (newItem s))
                  (fetch_post_items network (newItem s)) ;;
     (if negb (ok res) then
        errorText <- res_text res ;;
        console_error "Error adding item:" (ErrorText errorText) ;;
        raise (HttpError (res_status res))
      else ret tt) ;;
     createdItem <- res_json res ;;
     setItems (fun prevItems => prevItems ++ [createdItem]) ;;
     setNewItem emptyDraft)
    (fun error => console_error "Error in addItem:" (ErrorThrown error)).

(** The [onChange] handlers of the form "Add New Item". *)
Definition onChangeNewName (v : string) : Client unit :=
  s <- read ;; setNewItem (set_name v (newItem s)).

Definition onChangeNewDescription (v : string) : Client unit :=
  s <- read ;; setNewItem (set_description v (newItem s)).

Definition onChangeNewBarcode (v : string) : Client unit :=
  s <- read ;; setNewItem (set_barcode v (newItem s)).

(** [quantity: Math.max(0, Number(e.target.value))]; [value] is the
    number the input holds. *)
Definition onChangeNewQuantity (value : Z) : Client unit :=
  s <- read ;; setNewItem (set_quantity (Z.max 0 value) (newItem s)).

Definition onChangeNewPhotoUrl (v : string) : Client unit :=
  s <- read ;; setNewItem (set_photo_url v (newItem s)).

(** The [onChange] handlers of the form "Edit Item".  The form exists
    only while [editingItem] is an item. *)
Definition onChangeEdit (g : Fields -> Fields) : Client unit :=
  s <- read ;;
  match editingItem s with
  | Some e => setEditingItem (Some (with_fields g e))
  | None => ret tt
  end.

Definition onChangeEditName (v : string) : Client unit :=
  onChangeEdit (set_name v).

Definition onChangeEditDescription (v : string) : Client unit :=
  onChangeEdit (set_description v).

Definition onChangeEditBarcode (v : string) : Client unit :=
  onChangeEdit (set_barcode v).

Definition onChangeEditQuantity (value : Z) : Client unit :=
  onChangeEdit (set_quantity (Z.max 0 value)).

Definition onChangeEditNotes (v : string) : Client unit :=
  onChangeEdit (set_notes (Some v)).

(** "Save Changes": [updateItem(editingItem)]; "Cancel":
    [setEditingItem(null)]. *)
Definition onClickSave : Client unit :=
  s <- read ;;
  match editingItem s with
  | Some e => updateItem e
  | None => ret tt
  end.

Definition onClickCancel : Client unit := setEditingItem None.

End Client.

Arguments World N : clear implicits.
Arguments Client N A : clear implicits.

(** [field?.toString().toLowerCase()], or the empty string when the field
    is null or undefined (or empty). *)
Definition searchable (field : option string) : string :=
  match field with
  | Some s => Js.toLowerCase s
  | None => EmptyString
  end.

(** The four fields the search looks at:
    [[item.name, item.description, item.barcode, item.notes]]. *)
Definition searched_fields (item : Item) : list (option string) :=
  [Some (name (fields item)); Some (description (fields item));
   Some (barcode (fields item)); notes (fields item)].

(** The predicate of the filter, on the four fields. *)
Definition matches (query : string) (fs : list (option string)) : bool :=
  existsb (fun field => Js.includes field (Js.toLowerCase query))
          (map searchable fs).

(** [filteredItems] *)
Definition filteredItems (s : State) : list Item :=
  filter (fun item => matches (search s) (searched_fields item)) (items s).

End Dashboard.

(* ===================================================================== *)
(** * The dashboard in front of the API service *)
(* ===================================================================== *)

Module System.

Import Dashboard.

(** The other side of the network: the store of the API service, and
    whether the service can be reached (with the reason [fetch] rejects
    with when it cannot). *)
Record Server : Type := mkServer {
  database : Api.Database;
  unreachable : option string
}.

(** The user's gestures on the page, and the failures of the
    environment. *)
Inductive Event : Type :=
| Mount
| TypeNewName (v : string)
| TypeNewDescription (v : string)
| TypeNewBarcode (v : string)
| TypeNewQuantity (value : Z)
| TypeNewPhotoUrl (v : string)
| ClickAddItem
| TypeSearch (v : string)
| ClickEdit (card : nat)
| ClickMissing (card : nat)
| ClickDamaged (card : nat)
| TypeEditName (v : string)
| TypeEditDescription (v : string)
| TypeEditBarcode (v : string)
| TypeEditQuantity (value : Z)
| TypeEditNotes (v : string)
| ClickSave
| ClickCancel
| StoreFails (message : option string)
| NetworkFails (reason : option string).

Section Wiring.

(** [JSON.stringify] of a response body, as [res.text()] returns it: the
    text depends on the order of the columns, which src/ does not fix. *)
Variable stringify : Api.Json -> string.

Definition as_item (v : Api.Json) : option Item :=
  match v with
  | Api.JsonItem row => Some row
  | _ => None
  end.

Definition as_items (v : Api.Json) : option (list Item) :=
  match v with
  | Api.JsonItems rows => Some rows
  | _ => None
  end.

(** One round trip: the request reaches the handler unless the network
    fails, and the response comes back. *)
Definition round_trip {A : Type} (decode : Api.Json -> option A)
    (handler : Api.Database -> Api.Response * Api.Database) (srv : Server)
  : Settled A * Server :=
  match unreachable srv with
  | Some reason => (Rejects reason, srv)
  | None =>
      let (resp, db') := handler (database srv) in
      (Resolves (Api.status resp) (stringify (Api.json resp))
                (decode (Api.json resp)),
       mkServer db' None)
  end.

(** The handler of [PUT /items/:id] reads the eight properties of the
    body; the [id] property the dashboard also sends is not read. *)
Definition api : Network Server := {|
  fetch_get_items := round_trip as_items Api.get_items;
  fetch_put_item := fun i body =>
    round_trip as_item (Api.put_item i (fields body));
  fetch_post_items := fun body => round_trip as_item (Api.post_item body)
|}.

(** The cards on the page are the filtered items, in order. *)
Definition card (n : nat) (w : World Server) : option Item :=
  nth_error (filteredItems (ui w)) n.

(** The form "Edit Item" is inside the card of the item being edited. *)
Definition edit_form_shown (w : World Server) : bool :=
  match editingItem (ui w) with
  | Some e => existsb (fun item => id item =? id e) (filteredItems (ui w))
  | None => false
  end.

Definition on_card (n : nat) (k : Item -> Client Server unit)
  : Client Server unit :=
  fun w => match card n w with
           | Some item => k item w
           | None => (inr tt, w)
           end.

Definition on_edit_form (k : Client Server unit) : Client Server unit :=
  fun w => if edit_form_shown w then k w else (inr tt, w).

Definition set_server (g : Server -> Server) : Client Server unit :=
  fun w => (inr tt, mkWorld (ui w) (console w) (sent w) (g (net w))).

(** The handler each event runs. *)
Definition handle (e : Event) : Client Server unit :=
  match e with
  | Mount => fetchItems api
  | TypeNewName v => onChangeNewName v
  | TypeNewDescription v => onChangeNewDescription v
  | TypeNewBarcode v => onChangeNewBarcode v
  | TypeNewQuantity value => onChangeNewQuantity value
  | TypeNewPhotoUrl v => onChangeNewPhotoUrl v
  | ClickAddItem => addItem api
  | TypeSearch v => setSearch v
  | ClickEdit n => on_card n (fun item => setEditingItem (Some item))
  | ClickMissing n =>
      on_card n (fun item => handleMissingOrDamaged api (id item) Missing)
  | ClickDamaged n =>
      on_card n (fun item => handleMissingOrDamaged api (id item) Damaged)
  | TypeEditName v => on_edit_form (onChangeEditName v)
  | TypeEditDescription v => on_edit_form (onChangeEditDescription v)
  | TypeEditBarcode v => on_edit_form (onChangeEditBarcode v)
  | TypeEditQuantity value => on_edit_form (onChangeEditQuantity value)
  | TypeEditNotes v => on_edit_form (onChangeEditNotes v)
  | ClickSave => on_edit_form (onClickSave api)
  | ClickCancel => on_edit_form onClickCancel
  | StoreFails message =>
      set_server (fun srv =>
        mkServer (Api.mkDatabase (Api.table (database srv)) message)
                 (unreachable srv))
  | NetworkFails reason =>
      set_server (fun srv => mkServer (database srv) reason)
  end.

Definition step (w : World Server) (e : Event) : World Server :=
  snd (handle e w).

Definition run (es : list Event) (w : World Server) : World Server :=
  fold_left step es w.

(** The page before its first effect, in front of a store. *)
Definition start (db : Api.Database) : World Server :=
  mkWorld initialState [] [] (mkServer db None).

End Wiring.

End System.

(* ===================================================================== *)
(** * The notions the properties are stated with *)
(* ===================================================================== *)

(** A request that failed: [fetch] rejected, or the response has a status
    outside 200 to 299. *)
Definition failed {A : Type} (outcome : Dashboard.Settled A) : bool :=
  match outcome with
  | Dashboard.Rejects _ => true
  | Dashboard.Resolves status _ _ => negb ((200 <=? status) && (status <=? 299))
  end.

(** The flag a toggle of [type] clears. *)
Definition other (type : Dashboard.StatusType) : Dashboard.StatusType :=
  match type with
  | Dashboard.Missing => Dashboard.Damaged
  | Dashboard.Damaged => Dashboard.Missing
  end.

(** [prevItems.map(item => item.id === updatedData.id ? updatedData : item)] *)
Definition spliced (updatedData : Item) (prevItems : list Item) : list Item :=
  map (fun item => if id item =? id updatedData then updatedData else item)
      prevItems.

(** The letters that have two cases, each as the pair of its upper-case
    and its lower-case form, given by their code units: the 26 letters of
    ASCII (A, 65, and a, 97, up to Z, 90, and z, 122), and the 30 letters
    of the Latin-1 supplement (A with grave, 192, and a with grave, 224,
    up to Thorn, 222, and thorn, 254; 215 and 247 are the multiplication
    and the division sign). *)
Definition ascii_letters : list (ascii * ascii) :=
  map (fun p : nat * nat => (ascii_of_nat (fst p), ascii_of_nat (snd p)))
      [(65, 97); (66, 98); (67, 99); (68, 100); (69, 101);
       (70, 102); (71, 103); (72, 104); (73, 105); (74, 106);
       (75, 107); (76, 108); (77, 109); (78, 110); (79, 111);
       (80, 112); (81, 113); (82, 114); (83, 115); (84, 116);
       (85, 117); (86, 118); (87, 119); (88, 120); (89, 121);
       (90, 122)]%nat.

Definition latin1_letters : list (ascii * ascii) :=
  map (fun p : nat * nat => (ascii_of_nat (fst p), ascii_of_nat (snd p)))
      [(192, 224); (193, 225); (194, 226); (195, 227); (196, 228);
       (197, 229); (198, 230); (199, 231); (200, 232); (201, 233);
       (202, 234); (203, 235); (204, 236); (205, 237); (206, 238);
       (207, 239); (208, 240); (209, 241); (210, 242); (211, 243);
       (212, 244); (213, 245); (214, 246); (216, 248); (217, 249);
       (218, 250); (219, 251); (220, 252); (221, 253); (222, 254)]%nat.

Definition case_pairs : list (ascii * ascii) :=
  ascii_letters ++ latin1_letters.

(** Two characters are the same letter up to case: they are equal, or
    they are the two forms of one letter. *)
Definition same_letter (a b : ascii) : Prop :=
  a = b \/ In (a, b) case_pairs \/ In (b, a) case_pairs.

(** Two texts of the same length that are the same letter by letter. *)
Inductive same_text : string -> string -> Prop :=
| same_text_empty : same_text EmptyString EmptyString
| same_text_letter (a b : ascii) (s t : string) :
    same_letter a b -> same_text s t -> same_text (String a s) (String b t).




(** The invariant of the status flags, on everything the dashboard holds
    or has sent and on the rows of the store: at most one of [missing]
    and [damaged] is set. *)
Definition item_exclusive (i : Item) : bool := exclusive (fields i).

Definition request_exclusive (r : Dashboard.Request) : bool :=
  match r with
  | Dashboard.GetItems => true
  | Dashboard.PutItem _ body => item_exclusive body
  | Dashboard.PostItems body => exclusive body
  end.

Definition flags_exclusive (w : Dashboard.World System.Server) : bool :=
  forallb item_exclusive (Dashboard.items (Dashboard.ui w)) &&
  match Dashboard.editingItem (Dashboard.ui w) with
  | Some e => item_exclusive e
  | None => true
  end &&
  exclusive (Dashboard.newItem (Dashboard.ui w)) &&
  forallb request_exclusive (Dashboard.sent w) &&
  forallb item_exclusive (Api.table (System.database (Dashboard.net w))).

(** The same invariant, part by part. *)
Definition Consistent (w : Dashboard.World System.Server) : Prop :=
  Forall (fun i => item_exclusive i = true)
         (Dashboard.items (Dashboard.ui w)) /\
  (forall e, Dashboard.editingItem (Dashboard.ui w) = Some e ->
             item_exclusive e = true) /\
  exclusive (Dashboard.newItem (Dashboard.ui w)) = true /\
  Forall (fun r => request_exclusive r = true) (Dashboard.sent w) /\
  Forall (fun i => item_exclusive i = true)
         (Api.table (System.database (Dashboard.net w))).

(** The quantities of the create form: the draft holds a quantity that is
    not negative, and so did every draft that was posted. *)
Definition posted_quantity_ok (r : Dashboard.Request) : Prop :=
  match r with
  | Dashboard.PostItems body => 0 <= quantity body
  | _ => True
  end.

Definition draft_quantity_ok {N : Type} (w : Dashboard.World N) : Prop :=
  0 <= quantity (Dashboard.newItem (Dashboard.ui w)) /\
  Forall posted_quantity_ok (Dashboard.sent w).

(** The value a handler gets out of a request: the one [res.json()]
    yields when [fetch] resolved with a status from 200 to 299 and a body
    that can be read; nothing otherwise. *)
Definition delivered {A : Type} (outcome : Dashboard.Settled A) : option A :=
  match outcome with
  | Dashboard.Rejects _ => None
  | Dashboard.Resolves status _ data =>
      if (200 <=? status) && (status <=? 299) then data else None
  end.

(** The events of the form "Edit Item" that change its draft. *)
Definition is_edit (e : System.Event) : bool :=
  match e with
  | System.TypeEditName _ | System.TypeEditDescription _
  | System.TypeEditBarcode _ | System.TypeEditQuantity _
  | System.TypeEditNotes _ => true
  | _ => false
  end.


(** Two networks to run the handlers against: one on which every request
    is rejected, and one that answers every request with status [status]
    and echoes the record it was sent (a created record gets identity 1). *)
Definition rejecting (reason : string) : Dashboard.Network unit :=
  Dashboard.mkNetwork unit
    (fun n => (Dashboard.Rejects reason, n))
    (fun _ _ n => (Dashboard.Rejects reason, n))
    (fun _ n => (Dashboard.Rejects reason, n)).

Definition echoing (status : Z) : Dashboard.Network unit :=
  Dashboard.mkNetwork unit
    (fun n => (Dashboard.Resolves status "[]" (Some []), n))
    (fun _ body n => (Dashboard.Resolves status "{}" (Some body), n))
    (fun body n => (Dashboard.Resolves status "{}" (Some (mkItem 1 body)), n)).

(** A world of the dashboard that holds the given items and nothing
    else. *)
Definition showing {N : Type} (l : list Item) (n : N) : Dashboard.World N :=
  Dashboard.mkWorld
    (Dashboard.mkState l EmptyString None Dashboard.emptyDraft) [] [] n.

(* ===================================================================== *)
(** * Properties of the API service *)
(* ===================================================================== *)

Section ApiFacts.

Import Api.

(** The first row a statement returns is the first row its WHERE clause
    selects. *)
Lemma hd_error_filter {A : Type} (p : A -> bool) (l : list A) :
  hd_error (filter p l) = find p l.
Proof.
  induction l as [|a l IH]; simpl; [reflexivity|].
  destruct (p a); [reflexivity | exact IH].
Qed.

Lemma find_none_iff {A : Type} (p : A -> bool) (l : list A) :
  find p l = None <-> forall a, In a l -> p a = false.
Proof.
  split.
  - intros H a Ha. exact (find_none p l H a Ha).
  - induction l as [|a l IH]; intros H; simpl; [reflexivity|].
    rewrite (H a (or_introl eq_refl)). apply IH.
    intros b Hb. apply H. right. exact Hb.
Qed.

Lemma filter_nil_find {A : Type} (p : A -> bool) (l : list A) :
  filter p l = [] <-> find p l = None.
Proof.
  rewrite <- hd_error_filter. destruct (filter p l); simpl; split; congruence.
Qed.

(** A row that is not selected is left as it is by an UPDATE. *)
Lemma update_miss (hit : Item -> bool) (upd : Item -> Item) (t : Table) :
  find hit t = None -> map (fun r => if hit r then upd r else r) t = t.
Proof.
  rewrite find_none_iff. induction t as [|a t IH]; intros H; simpl.
  - reflexivity.
  - rewrite (H a (or_introl eq_refl)). f_equal. apply IH.
    intros b Hb. apply H. right. exact Hb.
Qed.

(** No row of a table has the identity the table assigns next. *)
Lemma id_lt_next_id (t : Table) (r : Item) : In r t -> id r < next_id t.
Proof.
  unfold next_id. induction t as [|a t IH]; intros H.
  - contradiction.
  - cbn [fold_right]. destruct H as [-> | H]; [lia|]. specialize (IH H). lia.
Qed.

(** What each handler answers when the store fails: status 500 with the
    driver's message, the table as it was. *)
Lemma store_failure_is_500 (t : Table) (message : string) (i delta : Z)
    (body : Fields) :
  let db := mkDatabase t (Some message) in
  get_items db = (internal_error message, db) /\
  put_item i body db = (internal_error message, db) /\
  update_quantity i delta db = (internal_error message, db) /\
  post_item body db = (internal_error message, db).
Proof. repeat split. Qed.

(** The response and the table of [PUT /items/:id], by whether a row has
    the identity. *)
Lemma put_item_miss (t : Table) (i : Z) (body : Fields) :
  find (fun r => id r =? i) t = None ->
  put_item i body (online t)
  = (mkResponse 404 (JsonError "Item not found"), online t).
Proof.
  intros H. unfold put_item, pool_query, online; simpl.
  rewrite (proj2 (filter_nil_find _ _) H); simpl.
  rewrite update_miss by exact H. reflexivity.
Qed.

Lemma put_item_hit (t : Table) (i : Z) (body : Fields) (r : Item) :
  find (fun r => id r =? i) t = Some r ->
  put_item i body (online t)
  = (mkResponse 200 (JsonItem (mkItem i body)),
     online (map (fun r => if id r =? i then mkItem (id r) body else r) t)).
Proof.
  intros H. unfold put_item, pool_query, online; simpl.
  pose proof (hd_error_filter (fun r => id r =? i) t) as E. rewrite H in E.
  destruct (filter (fun r => id r =? i) t) as [|r0 rest] eqn:F;
    simpl in E; [discriminate|].
  injection E as ->. simpl.
  apply find_some in H. destruct H as [_ H]. apply Z.eqb_eq in H.
  rewrite H. reflexivity.
Qed.

(** The response and the table of [update-quantity], by whether a row
    has the identity. *)
Lemma update_quantity_miss (t : Table) (i delta : Z) :
  find (fun r => id r =? i) t = None ->
  update_quantity i delta (online t)
  = (mkResponse 200 (JsonSuccess None), online t).
Proof.
  intros H. unfold update_quantity, pool_query, online; simpl.
  rewrite (proj2 (filter_nil_find _ _) H); simpl.
  rewrite update_miss by exact H. reflexivity.
Qed.

Lemma update_quantity_hit (t : Table) (i delta : Z) (r : Item) :
  find (fun r => id r =? i) t = Some r ->
  update_quantity i delta (online t)
  = (mkResponse 200 (JsonSuccess (Some (add_quantity delta r))),
     online (map (fun r => if id r =? i then add_quantity delta r else r) t)).
Proof.
  intros H. unfold update_quantity, pool_query, online; simpl.
  pose proof (hd_error_filter (fun r => id r =? i) t) as E. rewrite H in E.
  destruct (filter (fun r => id r =? i) t) as [|r0 rest] eqn:F;
    simpl in E; [discriminate|].
  injection E as ->. reflexivity.
Qed.

End ApiFacts.

(** C3. [PUT /items/:id], on a store that executes the statement: the
    response has status 404 exactly when no stored row has the identity,
    and then it is the not-found error and the table is unchanged; when a
    row has the identity, the response is the updated record with status
    200, whose eight mutable fields are the request body, and in the table
    every row with that identity now has exactly the fields of the body
    while every other row, and the number of rows, is as before.  (When
    the store fails instead of executing the statement, the answer is the
    internal error 500 of the handler's catch block, whatever the rows.) *)
Theorem put_item_replaces_or_404 (t : Api.Table) (i : Z) (body : Fields) :
  (Api.status (fst (Api.put_item i body (Api.online t))) = 404
   <-> forall r, In r t -> id r <> i) /\
  (forall message,
     Api.status (fst (Api.put_item i body (Api.mkDatabase t (Some message))))
     = 500) /\
  ((forall r, In r t -> id r <> i) ->
     Api.put_item i body (Api.online t)
     = (Api.mkResponse 404 (Api.JsonError "Item not found"), Api.online t)) /\
  ((exists r, In r t /\ id r = i) ->
     exists t',
       Api.put_item i body (Api.online t)
       = (Api.mkResponse 200 (Api.JsonItem (mkItem i body)), Api.online t') /\
       fields (mkItem i body) = body /\
       List.length t' = List.length t /\
       forall k r, nth_error t k = Some r ->
         nth_error t' k = Some (if id r =? i then mkItem i body else r)).
Proof.
  assert (M : (forall r, In r t -> id r <> i)
              -> find (fun r => id r =? i) t = None).
  { intros H. apply find_none_iff. intros r Hr. apply Z.eqb_neq, H, Hr. }
  assert (X : (exists r, In r t /\ id r = i)
              -> exists r, find (fun r => id r =? i) t = Some r).
  { intros [r [Hr E]]. destruct (find (fun r => id r =? i) t) as [r0|] eqn:F.
    - exists r0. reflexivity.
    - exfalso. apply (find_none _ _ F) in Hr. apply Z.eqb_neq in Hr.
      contradiction. }
  split; [|split; [reflexivity|split]].
  - split.
    + intros S r Hr E.
      destruct (X (ex_intro _ r (conj Hr E))) as [r0 F].
      rewrite (put_item_hit t i body r0 F) in S. simpl in S. discriminate.
    + intros H. rewrite (put_item_miss t i body (M H)). reflexivity.
  - intros H. apply put_item_miss, M, H.
  - intros H. destruct (X H) as [r0 F].
    exists (map (fun r => if id r =? i then mkItem (id r) body else r) t).
    split; [apply (put_item_hit t i body r0 F)|].
    split; [reflexivity|]. split; [apply length_map|].
    intros k r Hk. rewrite nth_error_map, Hk. simpl.
    destruct (Z.eqb_spec (id r) i) as [->|]; reflexivity.
Qed.

(** C4. [POST /items], on a store that executes the statement: for every
    request body the response has status 201 and carries the created
    record, which has the identity the store assigned (an identity no
    earlier row has), the five plain fields of the body, and for
    [missing], [damaged] and [notes] the value of the body when it is
    present and [false], [false] and the empty string when it is absent;
    the record is added to the table, and a [GET /items] that follows
    answers 200 with a list that contains it. *)
Theorem post_item_creates_with_defaults (t : Api.Table) (body : Fields) :
  let row := mkItem (Api.next_id t) (Api.with_defaults body) in
  Api.post_item body (Api.online t)
  = (Api.mkResponse 201 (Api.JsonItem row), Api.online (t ++ [row])) /\
  missing (fields row)
  = Some (match missing body with Some b => b | None => false end) /\
  damaged (fields row)
  = Some (match damaged body with Some b => b | None => false end) /\
  notes (fields row)
  = Some (match notes body with Some s => s | None => EmptyString end) /\
  (name (fields row) = name body /\
   description (fields row) = description body /\
   barcode (fields row) = barcode body /\
   quantity (fields row) = quantity body /\
   photo_url (fields row) = photo_url body) /\
  (forall r, In r t -> id r <> id row) /\
  (exists rows,
     fst (Api.get_items (snd (Api.post_item body (Api.online t))))
     = Api.mkResponse 200 (Api.JsonItems rows) /\
     In row rows /\
     forall r, In r t -> In r rows).
Proof.
  intros row. split; [reflexivity|].
  split; [simpl; destruct (missing body); reflexivity|].
  split; [simpl; destruct (damaged body); reflexivity|].
  split; [simpl; destruct (notes body); reflexivity|].
  split; [repeat split|].
  split.
  - intros r Hr E. apply id_lt_next_id in Hr. subst row. simpl in E. lia.
  - exists (t ++ [row]). split; [reflexivity|]. split.
    + apply in_or_app. right. left. reflexivity.
    + intros r Hr. apply in_or_app. left. exact Hr.
Qed.

(** C5. [POST /items/:id/update-quantity], on a store that executes the
    statement, for an item that exists ([r] is the first stored row with
    the identity) and any signed [delta]: the response is 200 with
    [{ success: true, item }] where [item] is the row with its previous
    quantity plus [delta] and every other field as before; nothing keeps
    the sum from being negative; in the table every row with that identity
    has its quantity increased by [delta] and every other row is as
    before; and a [GET /items] that follows lists the rows so updated. *)
Theorem update_quantity_adds_delta (t : Api.Table) (i delta : Z) (r : Item)
    (Hr : find (fun x => id x =? i) t = Some r) :
  exists t',
    Api.update_quantity i delta (Api.online t)
    = (Api.mkResponse 200 (Api.JsonSuccess (Some (Api.add_quantity delta r))),
       Api.online t') /\
    quantity (fields (Api.add_quantity delta r))
    = quantity (fields r) + delta /\
    id (Api.add_quantity delta r) = i /\
    (name (fields (Api.add_quantity delta r)) = name (fields r) /\
     description (fields (Api.add_quantity delta r)) = description (fields r) /\
     barcode (fields (Api.add_quantity delta r)) = barcode (fields r) /\
     photo_url (fields (Api.add_quantity delta r)) = photo_url (fields r) /\
     missing (fields (Api.add_quantity delta r)) = missing (fields r) /\
     damaged (fields (Api.add_quantity delta r)) = damaged (fields r) /\
     notes (fields (Api.add_quantity delta r)) = notes (fields r)) /\
    List.length t' = List.length t /\
    (forall k x, nth_error t k = Some x ->
       nth_error t' k
       = Some (if id x =? i then Api.add_quantity delta x else x)) /\
    In (Api.add_quantity delta r) t' /\
    Api.get_items (Api.online t')
    = (Api.mkResponse 200 (Api.JsonItems t'), Api.online t').
Proof.
  exists (map (fun x => if id x =? i then Api.add_quantity delta x else x) t).
  pose proof (find_some _ _ Hr) as [Hin Hid]. apply Z.eqb_eq in Hid.
  split.
  - apply update_quantity_hit, Hr.
  - split; [reflexivity|]. split; [exact Hid|]. split; [repeat split|].
    split; [apply length_map|]. split.
    + intros k x Hk. rewrite nth_error_map, Hk. reflexivity.
    + split; [|reflexivity].
      apply in_map_iff. exists r. split; [|exact Hin].
      rewrite Hid, Z.eqb_refl. reflexivity.
Qed.

(** The specification's example: delta -3 on an item of quantity 5. *)
Lemma update_quantity_adds_delta_witness :
  let r := mkItem 7 (mkFields "cable" "xlr" "b-7" 5 EmptyString
                       None None None) in
  find (fun x => id x =? 7) [r] = Some r /\
  exists t',
    Api.update_quantity 7 (-3) (Api.online [r])
    = (Api.mkResponse 200 (Api.JsonSuccess (Some (Api.add_quantity (-3) r))),
       Api.online t') /\
    quantity (fields (Api.add_quantity (-3) r)) = 2 /\
    Api.get_items (Api.online t')
    = (Api.mkResponse 200 (Api.JsonItems t'), Api.online t').
Proof.
  intros r. split; [reflexivity|].
  destruct (update_quantity_adds_delta [r] 7 (-3) r eq_refl)
    as [t' [H1 [H2 [_ [_ [_ [_ [_ H8]]]]]]]].
  exists t'. split; [exact H1|]. split; [exact H2 | exact H8].
Defined.

(** C9. [POST /items/:id/update-quantity] with an identity that no stored
    row has, on a store that executes the statement: the response is not
    an error; it has status 200 and is [{ success: true }] with no item
    (the property is undefined), and the store is unchanged. *)
Theorem update_quantity_unknown_id (t : Api.Table) (i delta : Z)
    (Hnone : find (fun x => id x =? i) t = None) :
  Api.update_quantity i delta (Api.online t)
  = (Api.mkResponse 200 (Api.JsonSuccess None), Api.online t) /\
  (forall r, In r t -> id r <> i).
Proof.
  split.
  - apply update_quantity_miss, Hnone.
  - intros r Hin. apply Z.eqb_neq. exact (find_none _ _ Hnone r Hin).
Qed.

Lemma update_quantity_unknown_id_witness :
  let t := [mkItem 1 (mkFields "lamp" EmptyString "b-1" 4 EmptyString
                        None None None)] in
  find (fun x => id x =? 9) t = None /\
  Api.update_quantity 9 2 (Api.online t)
  = (Api.mkResponse 200 (Api.JsonSuccess None), Api.online t).
Proof.
  intros t. split; [reflexivity|].
  exact (proj1 (update_quantity_unknown_id t 9 2 eq_refl)).
Defined.

(* ===================================================================== *)
(** * Properties of the dashboard's handlers *)
(* ===================================================================== *)

Section ClientFacts.

Import Dashboard.

Context {N : Type} (network : Network N).

(** [updateItem], by the outcome of its request. *)
Lemma updateItem_unfold (u : Item) (w : World N) :
  updateItem network u w
  = let (outcome, n') := fetch_put_item network (id u) u (net w) in
    let sent' := sent w ++ [PutItem (id u) u] in
    match outcome with
    | Rejects reason =>
        (inr tt,
         mkWorld (ui w)
           (console w
            ++ [("Error in updateItem:", ErrorThrown (FetchRejection reason))])
           sent' n')
    | Resolves status text data =>
        if (200 <=? status) && (status <=? 299) then
          match data with
          | Some updatedData =>
              (inr tt,
               mkWorld (mkState (spliced updatedData (items (ui w)))
                                (search (ui w)) None (newItem (ui w)))
                       (console w) sent' n')
          | None =>
              (inr tt,
               mkWorld (ui w)
                 (console w
                  ++ [("Error in updateItem:", ErrorThrown JsonRejection)])
                 sent' n')
          end
        else
          (inr tt,
           mkWorld (ui w)
             (console w
              ++ [("Error updating item:", ErrorText text);
                  ("Error in updateItem:", ErrorThrown (HttpError status))])
             sent' n')
    end.
Proof.
  unfold updateItem, fetch; simpl.
  destruct (fetch_put_item network (id u) u (net w))
    as [[reason|status text data] n'];
    simpl; [reflexivity|].
  unfold ok; simpl.
  destruct ((200 <=? status) && (status <=? 299)); simpl.
  - destruct data; reflexivity.
  - unfold console_error; simpl. rewrite <- app_assoc. reflexivity.
Qed.

(** [addItem], by the outcome of its request. *)
Lemma addItem_unfold (w : World N) :
  addItem network w
  = let (outcome, n') := fetch_post_items network (newItem (ui w)) (net w) in
    let sent' := sent w ++ [PostItems (newItem (ui w))] in
    match outcome with
    | Rejects reason =>
        (inr tt,
         mkWorld (ui w)
           (console w
            ++ [("Error in addItem:", ErrorThrown (FetchRejection reason))])
           sent' n')
    | Resolves status text data =>
        if (200 <=? status) && (status <=? 299) then
          match data with
          | Some createdItem =>
              (inr tt,
               mkWorld (mkState (items (ui w) ++ [createdItem])
                                (search (ui w)) (editingItem (ui w)) emptyDraft)
                       (console w) sent' n')
          | None =>
              (inr tt,
               mkWorld (ui w)
                 (console w
                  ++ [("Error in addItem:", ErrorThrown JsonRejection)])
                 sent' n')
          end
        else
          (inr tt,
           mkWorld (ui w)
             (console w
              ++ [("Error adding item:", ErrorText text);
                  ("Error in addItem:", ErrorThrown (HttpError status))])
             sent' n')
    end.
Proof.
  unfold addItem, fetch; simpl.
  destruct (fetch_post_items network (newItem (ui w)) (net w))
    as [[reason|status text data] n'];
    simpl; [reflexivity|].
  unfold ok; simpl.
  destruct ((200 <=? status) && (status <=? 299)); simpl.
  - destruct data; reflexivity.
  - unfold console_error; simpl. rewrite <- app_assoc. reflexivity.
Qed.

(** [updateItem] sends its argument, once, whatever comes back. *)
Lemma updateItem_sent (u : Item) (w : World N) :
  sent (snd (updateItem network u w)) = sent w ++ [PutItem (id u) u].
Proof.
  rewrite updateItem_unfold.
  destruct (fetch_put_item network (id u) u (net w))
    as [[reason|status text data] n'];
    simpl; [reflexivity|].
  destruct ((200 <=? status) && (status <=? 299)); [destruct data|];
    reflexivity.
Qed.

(** [addItem] sends the draft, once, whatever comes back. *)
Lemma addItem_sent (w : World N) :
  sent (snd (addItem network w)) = sent w ++ [PostItems (newItem (ui w))].
Proof.
  rewrite addItem_unfold.
  destruct (fetch_post_items network (newItem (ui w)) (net w))
    as [[reason|status text data] n'];
    simpl; [reflexivity|].
  destruct ((200 <=? status) && (status <=? 299)); [destruct data|];
    reflexivity.
Qed.

(** In a list whose identities are distinct, [find] by the identity of a
    member returns that member. *)
Lemma find_by_id_member (l : list Item) (item : Item) :
  NoDup (map id l) -> In item l ->
  find (fun x => id x =? id item) l = Some item.
Proof.
  induction l as [|a l IH]; intros Hnd Hin; [contradiction|].
  simpl in *. inversion Hnd as [|? ? Hna Hnd']; subst.
  destruct Hin as [-> | Hin].
  - rewrite Z.eqb_refl. reflexivity.
  - destruct (Z.eqb_spec (id a) (id item)) as [E|_].
    + exfalso. apply Hna. rewrite E. apply in_map. exact Hin.
    + apply IH; assumption.
Qed.

(** What [handleMissingOrDamaged] does once it has found the item. *)
Lemma handleMissingOrDamaged_found (i : Z) (type : StatusType) (item : Item)
    (w : World N) :
  find (fun x => id x =? i) (items (ui w)) = Some item ->
  handleMissingOrDamaged network i type w
  = updateItem network (toggled type item) w.
Proof.
  intros H. unfold handleMissingOrDamaged; simpl. rewrite H. reflexivity.
Qed.

(** With no item of that identity, nothing is sent and nothing changes. *)
Lemma handleMissingOrDamaged_not_found (i : Z) (type : StatusType)
    (w : World N) :
  find (fun x => id x =? i) (items (ui w)) = None ->
  handleMissingOrDamaged network i type w = (inr tt, w).
Proof.
  intros H. unfold handleMissingOrDamaged; simpl. rewrite H. reflexivity.
Qed.

(** The record a toggle builds has at most one flag set. *)
Lemma toggled_exclusive (type : StatusType) (item : Item) :
  exclusive (fields (toggled type item)) = true.
Proof.
  destruct type; unfold exclusive, toggled; simpl.
  - rewrite andb_false_r. reflexivity.
  - reflexivity.
Qed.

End ClientFacts.

(** C1. For every item of the dashboard's list (whose identities are
    distinct), [handleMissingOrDamaged] on that item's identity sends, with
    PUT, an updated record in which the toggled flag is the negation of its
    previous value, the other flag is false, [notes] is "Updated status"
    when the flag was turned on and the empty string when it was turned
    off, and the identity and the other fields are those of the item.  In
    particular, toggling [missing] on an item with [damaged] set and
    [missing] not set gives [missing = true], [damaged = false],
    [notes = "Updated status"], and toggling [missing] on that record gives
    [missing = false] and empty [notes]. *)
Theorem toggle_builds_updated_record {N : Type}
    (network : Dashboard.Network N) (w : Dashboard.World N) (item : Item)
    (type : Dashboard.StatusType)
    (Hin : In item (Dashboard.items (Dashboard.ui w)))
    (Hids : NoDup (map id (Dashboard.items (Dashboard.ui w)))) :
  let newValue := negb (truthy (Dashboard.flag type (fields item))) in
  exists updatedItem,
    Dashboard.sent
      (snd (Dashboard.handleMissingOrDamaged network (id item) type w))
    = Dashboard.sent w ++ [Dashboard.PutItem (id item) updatedItem] /\
    Dashboard.flag type (fields updatedItem) = Some newValue /\
    Dashboard.flag (other type) (fields updatedItem) = Some false /\
    notes (fields updatedItem)
    = Some (if newValue then "Updated status" else EmptyString) /\
    (id updatedItem = id item /\
     name (fields updatedItem) = name (fields item) /\
     description (fields updatedItem) = description (fields item) /\
     barcode (fields updatedItem) = barcode (fields item) /\
     quantity (fields updatedItem) = quantity (fields item) /\
     photo_url (fields updatedItem) = photo_url (fields item)) /\
    (type = Dashboard.Missing ->
     truthy (missing (fields item)) = false ->
     truthy (damaged (fields item)) = true ->
     missing (fields updatedItem) = Some true /\
     damaged (fields updatedItem) = Some false /\
     notes (fields updatedItem) = Some "Updated status" /\
     missing (fields (Dashboard.toggled Dashboard.Missing updatedItem))
     = Some false /\
     notes (fields (Dashboard.toggled Dashboard.Missing updatedItem))
     = Some EmptyString).
Proof.
  intros newValue. exists (Dashboard.toggled type item).
  split.
  - rewrite (handleMissingOrDamaged_found network (id item) type item w)
      by (apply find_by_id_member; assumption).
    rewrite updateItem_sent. reflexivity.
  - subst newValue.
    destruct type; simpl; repeat split; try discriminate;
      match goal with Hm : truthy _ = false |- _ => rewrite Hm end;
      reflexivity.
Qed.

Lemma toggle_builds_updated_record_witness :
  let item :=
    mkItem 3 (mkFields "amp" "50 W" "b-3" 2 EmptyString
                (Some false) (Some true) (Some "cracked")) in
  let w := showing [item] tt in
  In item (Dashboard.items (Dashboard.ui w)) /\
  NoDup (map id (Dashboard.items (Dashboard.ui w))) /\
  exists updatedItem,
    Dashboard.sent
      (snd (Dashboard.handleMissingOrDamaged (echoing 200) 3
              Dashboard.Missing w))
    = [Dashboard.PutItem 3 updatedItem] /\
    missing (fields updatedItem) = Some true /\
    damaged (fields updatedItem) = Some false /\
    notes (fields updatedItem) = Some "Updated status".
Proof.
  intros item w.
  assert (Hin : In item (Dashboard.items (Dashboard.ui w)))
    by (left; reflexivity).
  assert (Hids : NoDup (map id (Dashboard.items (Dashboard.ui w))))
    by (repeat constructor; simpl; tauto).
  split; [exact Hin|]. split; [exact Hids|].
  destruct (toggle_builds_updated_record (echoing 200) w item
              Dashboard.Missing Hin Hids)
    as [u [Hs [_ [_ [_ [_ P]]]]]].
  exists u. split; [exact Hs|].
  destruct (P eq_refl eq_refl eq_refl) as [A [B [C _]]].
  repeat split; assumption.
Defined.

(** C7. When the request of [updateItem] or of [addItem] fails (the fetch
    rejects, or the response has a status outside 200 to 299), the handler
    returns normally, the component's state (the items, the new-item
    draft, the editing state and the search text) is what it was, the
    error is written to the console and nothing else happens: the request
    was sent once and no other request follows. *)
Theorem failed_request_aborts_silently {N : Type}
    (network : Dashboard.Network N) (w : Dashboard.World N) :
  (forall updatedItem outcome n',
     Dashboard.fetch_put_item network (id updatedItem) updatedItem
       (Dashboard.net w) = (outcome, n') ->
     failed outcome = true ->
     exists logged,
       logged <> [] /\
       Dashboard.updateItem network updatedItem w
       = (inr tt,
          Dashboard.mkWorld (Dashboard.ui w)
            (Dashboard.console w ++ logged)
            (Dashboard.sent w
             ++ [Dashboard.PutItem (id updatedItem) updatedItem])
            n')) /\
  (forall outcome n',
     Dashboard.fetch_post_items network
       (Dashboard.newItem (Dashboard.ui w)) (Dashboard.net w)
     = (outcome, n') ->
     failed outcome = true ->
     exists logged,
       logged <> [] /\
       Dashboard.addItem network w
       = (inr tt,
          Dashboard.mkWorld (Dashboard.ui w)
            (Dashboard.console w ++ logged)
            (Dashboard.sent w
             ++ [Dashboard.PostItems (Dashboard.newItem (Dashboard.ui w))])
            n')).
Proof.
  split.
  - intros u outcome n' Hf Hbad. rewrite updateItem_unfold, Hf.
    destruct outcome as [reason|status text data]; simpl in Hbad |- *.
    + eexists. split; [|reflexivity]. discriminate.
    + apply negb_true_iff in Hbad. rewrite Hbad.
      eexists. split; [|reflexivity]. discriminate.
  - intros outcome n' Hf Hbad. rewrite addItem_unfold, Hf.
    destruct outcome as [reason|status text data]; simpl in Hbad |- *.
    + eexists. split; [|reflexivity]. discriminate.
    + apply negb_true_iff in Hbad. rewrite Hbad.
      eexists. split; [|reflexivity]. discriminate.
Qed.

Lemma failed_request_aborts_silently_witness :
  let u := mkItem 3 (mkFields "amp" "50 W" "b-3" 2 EmptyString
                       None None None) in
  let w := showing [u] tt in
  Dashboard.ui (snd (Dashboard.updateItem (echoing 404) u w))
  = Dashboard.ui w /\
  Dashboard.ui (snd (Dashboard.addItem (rejecting "offline") w))
  = Dashboard.ui w.
Proof.
  intros u w. split.
  - destruct (proj1 (failed_request_aborts_silently (echoing 404) w)
                u (Dashboard.Resolves 404 "{}" (Some u)) tt
                eq_refl eq_refl) as [logged [_ E]].
    rewrite E. reflexivity.
  - destruct (proj2 (failed_request_aborts_silently (rejecting "offline") w)
                (Dashboard.Rejects "offline") tt eq_refl eq_refl)
      as [logged [_ E]].
    rewrite E. reflexivity.
Defined.

(** C10. On the success path of [updateItem] (the response has a success
    status and carries the record [updatedData]), the list keeps its
    length and its order, every entry whose identity differs from that of
    [updatedData] is unchanged, every entry with that identity is replaced
    by [updatedData], the editing state is cleared, and the search text,
    the new-item draft and the console are as before. *)
Theorem updateItem_success_frame {N : Type}
    (network : Dashboard.Network N) (w : Dashboard.World N)
    (updatedItem updatedData : Item) (status : Z) (text : string) (n' : N)
    (Hfetch : Dashboard.fetch_put_item network (id updatedItem) updatedItem
                (Dashboard.net w)
              = (Dashboard.Resolves status text (Some updatedData), n'))
    (Hok : 200 <= status <= 299) :
  let w' := snd (Dashboard.updateItem network updatedItem w) in
  List.length (Dashboard.items (Dashboard.ui w'))
  = List.length (Dashboard.items (Dashboard.ui w)) /\
  (forall k item,
     nth_error (Dashboard.items (Dashboard.ui w)) k = Some item ->
     id item <> id updatedData ->
     nth_error (Dashboard.items (Dashboard.ui w')) k = Some item) /\
  (forall k item,
     nth_error (Dashboard.items (Dashboard.ui w)) k = Some item ->
     id item = id updatedData ->
     nth_error (Dashboard.items (Dashboard.ui w')) k = Some updatedData) /\
  Dashboard.editingItem (Dashboard.ui w') = None /\
  Dashboard.search (Dashboard.ui w') = Dashboard.search (Dashboard.ui w) /\
  Dashboard.newItem (Dashboard.ui w') = Dashboard.newItem (Dashboard.ui w) /\
  Dashboard.console w' = Dashboard.console w.
Proof.
  intros w'. subst w'. rewrite updateItem_unfold, Hfetch.
  replace ((200 <=? status) && (status <=? 299)) with true
    by (symmetry; apply andb_true_iff; split; apply Z.leb_le; lia).
  simpl. unfold spliced.
  split; [apply length_map|].
  split; [|split; [|repeat split]].
  - intros k item Hk Hne. rewrite nth_error_map, Hk. simpl.
    apply Z.eqb_neq in Hne. rewrite Hne. reflexivity.
  - intros k item Hk He. rewrite nth_error_map, Hk. simpl.
    apply Z.eqb_eq in He. rewrite He. reflexivity.
Qed.

Lemma updateItem_success_frame_witness :
  let a := mkItem 1 (mkFields "lamp" EmptyString "b-1" 4 EmptyString
                       None None None) in
  let b := mkItem 2 (mkFields "amp" EmptyString "b-2" 1 EmptyString
                       None None None) in
  let b' := with_fields (set_name "amplifier") b in
  let w := showing [a; b] tt in
  Dashboard.items
    (Dashboard.ui (snd (Dashboard.updateItem (echoing 200) b' w)))
  = [a; b'].
Proof.
  intros a b b' w.
  destruct (updateItem_success_frame (echoing 200) w b' b' 200 "{}" tt
              eq_refl ltac:(lia)) as [L [Hframe [Hrepl _]]].
  pose proof (Hframe 0%nat a eq_refl ltac:(simpl; lia)) as H0.
  pose proof (Hrepl 1%nat b eq_refl eq_refl) as H1.
  destruct (Dashboard.items
              (Dashboard.ui (snd (Dashboard.updateItem (echoing 200) b' w))))
    as [|x [|y [|z l]]]; simpl in L, H0, H1; try discriminate.
  congruence.
Defined.

(* ===================================================================== *)
(** * Properties of the search *)
(* ===================================================================== *)

Section SearchFacts.

Import Js.

Local Open Scope string_scope.

Lemma prefix_iff (q s : string) :
  String.prefix q s = true <-> exists rest, s = q ++ rest.
Proof.
  revert s. induction q as [|c q IH]; intros s; simpl.
  - split; [intros _; exists s; reflexivity | destruct s; reflexivity].
  - destruct s as [|d s].
    + split; [discriminate | intros [rest H]; discriminate].
    + simpl. destruct (Ascii.ascii_dec c d) as [->|Hne].
      * rewrite IH. split; intros [rest H]; exists rest.
        -- rewrite H. reflexivity.
        -- injection H as H. exact H.
      * split; [discriminate|]. intros [rest H]. injection H as H1 _.
        congruence.
Qed.

(** [includes] finds the query exactly when it occurs somewhere. *)
Lemma includes_iff (s q : string) :
  includes s q = true <-> exists before after, s = before ++ q ++ after.
Proof.
  induction s as [|c s IH]; cbn [includes].
  - rewrite orb_false_r, prefix_iff. split.
    + intros [rest H]. exists EmptyString, rest. exact H.
    + intros [[|b before] [after H]]; [exists after; exact H | discriminate].
  - rewrite orb_true_iff, prefix_iff, IH. split.
    + intros [[rest H] | [before [after H]]].
      * exists EmptyString, rest. exact H.
      * exists (String c before), after. simpl. rewrite H. reflexivity.
    + intros [[|b before] [after H]].
      * left. exists after. exact H.
      * right. simpl in H. injection H as _ H. exists before, after. exact H.
Qed.

Lemma toLowerCase_app (a b : string) :
  toLowerCase (a ++ b) = toLowerCase a ++ toLowerCase b.
Proof.
  induction a as [|c a IH]; simpl; [reflexivity | rewrite IH; reflexivity].
Qed.


Lemma is_upper_iff (c : ascii) :
  is_upper c = true
  <-> (65 <= N_of_ascii c <= 90 \/ 192 <= N_of_ascii c <= 214 \/
       216 <= N_of_ascii c <= 222)%N.
Proof.
  unfold is_upper. cbv zeta.
  rewrite !orb_true_iff, !andb_true_iff, !N.leb_le. tauto.
Qed.

Lemma N_of_lower_unit (c : ascii) :
  N_of_ascii (lower_unit c)
  = if is_upper c then (N_of_ascii c + 32)%N else N_of_ascii c.
Proof.
  unfold lower_unit. destruct (is_upper c) eqn:U; [|reflexivity].
  apply N_ascii_embedding. apply is_upper_iff in U. lia.
Qed.

Lemma N_of_ascii_inj (a b : ascii) : N_of_ascii a = N_of_ascii b -> a = b.
Proof.
  intros H. rewrite <- (ascii_N_embedding a), <- (ascii_N_embedding b), H.
  reflexivity.
Qed.

(** The second form of a pair is the lower case of the first, and is its
    own lower case. *)
Lemma case_pair_lower (a b : ascii) :
  In (a, b) case_pairs -> b = lower_unit a /\ lower_unit b = b.
Proof.
  intros H. unfold case_pairs, ascii_letters, latin1_letters in H.
  simpl in H.
  repeat (destruct H as [H|H];
          [injection H as <- <-; split; reflexivity|]).
  contradiction.
Qed.

(** Every upper-case letter is the first form of a pair. *)
Lemma upper_in_case_pairs (c : ascii) :
  is_upper c = true -> In (c, lower_unit c) case_pairs.
Proof.
  destruct c as [[] [] [] [] [] [] [] []];
    (intros U; vm_compute in U; try discriminate U);
    vm_compute; repeat (first [left; reflexivity | right]).
Qed.

(** Two characters have the same lower case exactly when they are the
    same letter up to case. *)
Lemma lower_unit_eq_iff (a b : ascii) :
  lower_unit a = lower_unit b <-> same_letter a b.
Proof.
  unfold same_letter. split.
  - intros H. pose proof (f_equal N_of_ascii H) as HN.
    rewrite !N_of_lower_unit in HN.
    destruct (is_upper a) eqn:Ua; destruct (is_upper b) eqn:Ub.
    + left. apply N_of_ascii_inj. lia.
    + right. left. unfold lower_unit at 2 in H. rewrite Ub in H.
      rewrite <- H. apply upper_in_case_pairs, Ua.
    + right. right. unfold lower_unit at 1 in H. rewrite Ua in H.
      rewrite H. apply upper_in_case_pairs, Ub.
    + left. apply N_of_ascii_inj. exact HN.
  - intros [-> | [H | H]]; [reflexivity | |];
      apply case_pair_lower in H; destruct H as [E L].
    + rewrite <- E. symmetry. exact L.
    + rewrite <- E. exact L.
Qed.

Lemma toLowerCase_eq_iff (s t : string) :
  toLowerCase s = toLowerCase t <-> same_text s t.
Proof.
  split.
  - revert t. induction s as [|a s IH]; intros [|b t] H; simpl in H;
      try discriminate.
    + constructor.
    + injection H as Hc H. constructor.
      * apply lower_unit_eq_iff, Hc.
      * apply IH, H.
  - induction 1 as [|a b s t Hl _ IH]; simpl; [reflexivity|].
    rewrite IH. f_equal. apply lower_unit_eq_iff, Hl.
Qed.





End SearchFacts.


(* ===================================================================== *)
(** * The invariant of the status flags *)
(* ===================================================================== *)

Section FlagFacts.

Import Dashboard System.

Variable stringify : Api.Json -> string.

Lemma flags_exclusive_iff (w : World Server) :
  flags_exclusive w = true <-> Consistent w.
Proof.
  unfold flags_exclusive, Consistent.
  rewrite !andb_true_iff, !forallb_forall, !Forall_forall.
  split.
  - intros [[[[H1 H2] H3] H4] H5]. repeat split; try assumption.
    intros e He. rewrite He in H2. exact H2.
  - intros [H1 [H2 [H3 [H4 H5]]]]. repeat split; try assumption.
    destruct (editingItem (ui w)) as [e|]; [apply H2|]; reflexivity.
Qed.

(** The setters of the forms leave the two flags as they are. *)
Lemma edits_keep_flags (f : Fields) (v : string) (q : Z) :
  exclusive (set_name v f) = exclusive f /\
  exclusive (set_description v f) = exclusive f /\
  exclusive (set_barcode v f) = exclusive f /\
  exclusive (set_quantity q f) = exclusive f /\
  exclusive (set_photo_url v f) = exclusive f /\
  exclusive (set_notes (Some v) f) = exclusive f.
Proof. repeat split. Qed.

(** The defaults of [POST /items] do not set a flag. *)
Lemma with_defaults_exclusive (body : Fields) :
  exclusive (Api.with_defaults body) = exclusive body.
Proof.
  unfold exclusive; simpl.
  destruct (missing body) as [[]|], (damaged body) as [[]|]; reflexivity.
Qed.

(** The handlers of the API keep the invariant of the rows, and a record
    they answer with satisfies it, when the body they are given does. *)
Lemma put_item_exclusive (i : Z) (body : Fields) (db : Api.Database) :
  exclusive body = true ->
  Forall (fun r => item_exclusive r = true) (Api.table db) ->
  Forall (fun r => item_exclusive r = true)
         (Api.table (snd (Api.put_item i body db))) /\
  forall row, as_item (Api.json (fst (Api.put_item i body db))) = Some row ->
              item_exclusive row = true.
Proof.
  intros Hb Ht. unfold Api.put_item, Api.pool_query.
  destruct (Api.outage db) as [message|]; simpl.
  - split; [exact Ht | discriminate].
  - destruct (filter (fun r => id r =? i) (Api.table db)) as [|r rest];
      simpl; (split; [|intros row E; try discriminate]).
    + apply Forall_map. revert Ht. apply Forall_impl. intros a Ha.
      destruct (id a =? i); [exact Hb | exact Ha].
    + apply Forall_map. revert Ht. apply Forall_impl. intros a Ha.
      destruct (id a =? i); [exact Hb | exact Ha].
    + injection E as <-. exact Hb.
Qed.

Lemma post_item_exclusive (body : Fields) (db : Api.Database) :
  exclusive body = true ->
  Forall (fun r => item_exclusive r = true) (Api.table db) ->
  Forall (fun r => item_exclusive r = true)
         (Api.table (snd (Api.post_item body db))) /\
  forall row, as_item (Api.json (fst (Api.post_item body db))) = Some row ->
              item_exclusive row = true.
Proof.
  intros Hb Ht. unfold Api.post_item, Api.pool_query.
  assert (Hd : exclusive (Api.with_defaults body) = true)
    by (rewrite with_defaults_exclusive; exact Hb).
  destruct (Api.outage db) as [message|]; simpl.
  - split; [exact Ht | discriminate].
  - split.
    + apply Forall_app. split; [exact Ht|]. constructor; [exact Hd|constructor].
    + intros row E. injection E as <-. exact Hd.
Qed.

Lemma get_items_exclusive (db : Api.Database) :
  Forall (fun r => item_exclusive r = true) (Api.table db) ->
  Forall (fun r => item_exclusive r = true)
         (Api.table (snd (Api.get_items db))) /\
  forall rows, as_items (Api.json (fst (Api.get_items db))) = Some rows ->
               Forall (fun r => item_exclusive r = true) rows.
Proof.
  intros Ht. unfold Api.get_items, Api.pool_query.
  destruct (Api.outage db) as [message|]; simpl.
  - split; [exact Ht | discriminate].
  - split; [exact Ht|]. intros rows E. injection E as <-. exact Ht.
Qed.

(** One round trip keeps the rows consistent and brings back consistent
    data, when the handler does. *)
Lemma round_trip_exclusive {A : Type} (good : A -> Prop)
    (decode : Api.Json -> option A)
    (handler : Api.Database -> Api.Response * Api.Database) (srv : Server) :
  (Forall (fun r => item_exclusive r = true)
          (Api.table (snd (handler (database srv)))) /\
   forall a, decode (Api.json (fst (handler (database srv)))) = Some a ->
             good a) ->
  Forall (fun r => item_exclusive r = true) (Api.table (database srv)) ->
  Forall (fun r => item_exclusive r = true)
         (Api.table (database (snd (round_trip stringify decode handler srv))))
  /\
  forall status text a,
    fst (round_trip stringify decode handler srv)
    = Resolves status text (Some a) -> good a.
Proof.
  intros [Ht' Hd] Ht. unfold round_trip.
  destruct (unreachable srv) as [reason|]; simpl.
  - split; [exact Ht | discriminate].
  - destruct (handler (database srv)) as [resp db']; simpl in *.
    split; [exact Ht'|]. intros status text a E. injection E as _ _ E.
    apply Hd, E.
Qed.

Ltac consistent_parts :=
  unfold Consistent; simpl; repeat split; auto; try discriminate.

Lemma sent_exclusive_snoc (l : list Request) (r : Request) :
  Forall (fun r => request_exclusive r = true) l ->
  request_exclusive r = true ->
  Forall (fun r => request_exclusive r = true) (l ++ [r]).
Proof.
  intros Hl Hr. apply Forall_app. split; [exact Hl|].
  constructor; [exact Hr | constructor].
Qed.

Lemma spliced_exclusive (d : Item) (l : list Item) :
  item_exclusive d = true ->
  Forall (fun i => item_exclusive i = true) l ->
  Forall (fun i => item_exclusive i = true) (spliced d l).
Proof.
  intros Hd Hl. unfold spliced. apply Forall_map. revert Hl.
  apply Forall_impl. intros a Ha. destruct (id a =? id d); assumption.
Qed.

(** [updateItem] keeps the invariant when the record it is given has at
    most one flag set. *)
Lemma updateItem_consistent (u : Item) (w : World Server) :
  item_exclusive u = true -> Consistent w ->
  Consistent (snd (updateItem (api stringify) u w)).
Proof.
  intros Hu [H1 [H2 [H3 [H4 H5]]]].
  rewrite updateItem_unfold.
  destruct (round_trip_exclusive (fun a => item_exclusive a = true) as_item
              (Api.put_item (id u) (fields u)) (net w)
              (put_item_exclusive _ _ _ Hu H5) H5) as [Ht Hd].
  change (fetch_put_item (api stringify) (id u) u (net w))
    with (round_trip stringify as_item (Api.put_item (id u) (fields u))
            (net w)).
  destruct (round_trip stringify as_item (Api.put_item (id u) (fields u))
              (net w))
    as [outcome n']; simpl in Ht, Hd.
  pose proof (sent_exclusive_snoc _ (PutItem (id u) u) H4 Hu) as Hs.
  destruct outcome as [reason|status text data]; [consistent_parts|].
  destruct ((200 <=? status) && (status <=? 299)); [|consistent_parts].
  destruct data as [d|]; [|consistent_parts].
  consistent_parts. apply spliced_exclusive; [|exact H1].
  apply (Hd status text d eq_refl).
Qed.

(** [addItem] keeps the invariant. *)
Lemma addItem_consistent (w : World Server) :
  Consistent w -> Consistent (snd (addItem (api stringify) w)).
Proof.
  intros [H1 [H2 [H3 [H4 H5]]]].
  rewrite addItem_unfold.
  destruct (round_trip_exclusive (fun a => item_exclusive a = true) as_item
              (Api.post_item (newItem (ui w))) (net w)
              (post_item_exclusive _ _ H3 H5) H5) as [Ht Hd].
  change (fetch_post_items (api stringify) (newItem (ui w)) (net w))
    with (round_trip stringify as_item (Api.post_item (newItem (ui w)))
            (net w)).
  destruct (round_trip stringify as_item (Api.post_item (newItem (ui w)))
              (net w))
    as [outcome n']; simpl in Ht, Hd.
  pose proof (sent_exclusive_snoc _ (PostItems (newItem (ui w))) H4 H3) as Hs.
  destruct outcome as [reason|status text data]; [consistent_parts|].
  destruct ((200 <=? status) && (status <=? 299)); [|consistent_parts].
  destruct data as [d|]; [|consistent_parts].
  consistent_parts. apply Forall_app. split; [exact H1|].
  constructor; [apply (Hd status text d eq_refl) | constructor].
Qed.

(** [fetchItems] keeps the invariant. *)
Lemma fetchItems_consistent (w : World Server) :
  Consistent w -> Consistent (snd (fetchItems (api stringify) w)).
Proof.
  intros [H1 [H2 [H3 [H4 H5]]]].
  destruct (round_trip_exclusive
              (Forall (fun a => item_exclusive a = true)) as_items
              Api.get_items (net w) (get_items_exclusive _ H5) H5) as [Ht Hd].
  unfold fetchItems, fetch; simpl.
  change (fetch_get_items (api stringify) (net w))
    with (round_trip stringify as_items Api.get_items (net w)).
  destruct (round_trip stringify as_items Api.get_items (net w))
    as [outcome n']; simpl in Ht, Hd.
  pose proof (sent_exclusive_snoc _ GetItems H4 eq_refl) as Hs.
  destruct outcome as [reason|status text data]; simpl; [consistent_parts|].
  unfold ok; simpl.
  destruct ((200 <=? status) && (status <=? 299)); simpl; [|consistent_parts].
  destruct data as [d|]; simpl; [|consistent_parts].
  consistent_parts. apply (Hd status text d eq_refl).
Qed.

(** A status click keeps the invariant. *)
Lemma handleMissingOrDamaged_consistent (i : Z) (type : StatusType)
    (w : World Server) :
  Consistent w ->
  Consistent (snd (handleMissingOrDamaged (api stringify) i type w)).
Proof.
  intros H.
  destruct (find (fun x => id x =? i) (items (ui w))) as [item|] eqn:F.
  - rewrite (handleMissingOrDamaged_found _ i type item w F).
    apply updateItem_consistent; [apply toggled_exclusive | exact H].
  - rewrite (handleMissingOrDamaged_not_found _ i type w F). exact H.
Qed.

(** A card shows an item of the list. *)
Lemma card_in_items (n : nat) (w : World Server) (item : Item) :
  card n w = Some item -> In item (items (ui w)).
Proof.
  unfold card, filteredItems. intros H. apply nth_error_In in H.
  apply filter_In in H. apply H.
Qed.

(** An edit of the draft of the form "Edit Item" keeps the invariant when
    it keeps the flags. *)
Lemma onChangeEdit_consistent (g : Fields -> Fields) (w : World Server) :
  (forall f, exclusive (g f) = exclusive f) ->
  Consistent w -> Consistent (snd (onChangeEdit g w)).
Proof.
  intros Hg [H1 [H2 [H3 [H4 H5]]]]. unfold onChangeEdit; simpl.
  destruct (editingItem (ui w)) as [e|] eqn:E; simpl; consistent_parts.
  - intros e' He'. injection He' as <-. unfold item_exclusive; simpl.
    rewrite Hg. apply (H2 e eq_refl).
  - intros e He. rewrite E in He. discriminate.
Qed.

(** Every event keeps the invariant. *)
Lemma step_consistent (w : World Server) (e : Event) :
  Consistent w -> Consistent (step stringify w e).
Proof.
  intros H. pose proof H as [H1 [H2 [H3 [H4 H5]]]].
  unfold step.
  destruct e as [ |v|v|v|value|v| |v|n|n|n|v|v|v|value|v| | |message|reason];
    simpl;
    try (unfold on_edit_form; destruct (edit_form_shown w); simpl;
         [|exact H]);
    try (unfold on_card; destruct (card n w) as [item|] eqn:C; simpl;
         [|exact H]);
    try (apply onChangeEdit_consistent; [reflexivity | exact H]);
    try (apply handleMissingOrDamaged_consistent; exact H);
    try (consistent_parts; fail).
  - apply fetchItems_consistent, H.
  - apply addItem_consistent, H.
  - consistent_parts. intros e He. injection He as <-.
    apply card_in_items in C.
    rewrite Forall_forall in H1. apply H1, C.
  - unfold onClickSave; simpl.
    destruct (editingItem (ui w)) as [e|] eqn:E; [|exact H].
    apply updateItem_consistent; [apply (H2 e eq_refl) | exact H].
Qed.

Lemma run_consistent (es : list Event) (w : World Server) :
  Consistent w -> Consistent (run stringify es w).
Proof.
  revert w. induction es as [|e es IH]; intros w H; simpl; [exact H|].
  apply IH, step_consistent, H.
Qed.

End FlagFacts.

(** C2. The record [handleMissingOrDamaged] builds has at most one of
    [missing] and [damaged] set, whatever the item it starts from; the
    edits of the two forms keep both flags as they are, and [updateItem]
    and [addItem] send the record, respectively the draft, they were
    given; so, with the dashboard in front of the API, after every sequence
    of events (status clicks, edits, saves, creates, searches, failures of
    the store or of the network), if at most one flag was set in every
    item the dashboard holds, in its drafts, in the requests it sent and
    in the rows of the store, the same is true afterwards. *)
Theorem status_flags_stay_exclusive (stringify : Api.Json -> string) :
  (forall type item,
     exclusive (fields (Dashboard.toggled type item)) = true) /\
  (forall f v q,
     let kept := fun g : Fields -> Fields =>
                   missing (g f) = missing f /\ damaged (g f) = damaged f in
     kept (set_name v) /\ kept (set_description v) /\ kept (set_barcode v) /\
     kept (set_quantity q) /\ kept (set_photo_url v) /\
     kept (set_notes (Some v))) /\
  (forall (N : Type) (network : Dashboard.Network N) u (w : Dashboard.World N),
     Dashboard.sent (snd (Dashboard.updateItem network u w))
     = Dashboard.sent w ++ [Dashboard.PutItem (id u) u]) /\
  (forall (N : Type) (network : Dashboard.Network N) (w : Dashboard.World N),
     Dashboard.sent (snd (Dashboard.addItem network w))
     = Dashboard.sent w
       ++ [Dashboard.PostItems (Dashboard.newItem (Dashboard.ui w))]) /\
  (forall es w,
     flags_exclusive w = true ->
     flags_exclusive (System.run stringify es w) = true).
Proof.
  split; [exact toggled_exclusive|].
  split; [intros f v q kept; subst kept; simpl; repeat split|].
  split; [intros N network u w; apply updateItem_sent|].
  split; [intros N network w; apply addItem_sent|].
  intros es w H. apply flags_exclusive_iff, run_consistent.
  apply flags_exclusive_iff, H.
Qed.

Lemma status_flags_stay_exclusive_witness :
  let w := System.start (Api.online []) in
  let es := [System.Mount; System.TypeNewName "amp"; System.ClickAddItem;
             System.ClickDamaged 0; System.ClickMissing 0;
             System.ClickEdit 0; System.TypeEditNotes "found";
             System.ClickSave] in
  flags_exclusive w = true /\
  flags_exclusive (System.run (fun _ => EmptyString) es w) = true.
Proof.
  intros w es. split; [reflexivity|].
  apply (proj2 (proj2 (proj2 (proj2
           (status_flags_stay_exclusive (fun _ => EmptyString)))))).
  reflexivity.
Defined.

(* ===================================================================== *)
(** * The quantity of the drafts *)
(* ===================================================================== *)

Section QuantityFacts.

Import Dashboard System.

Variable stringify : Api.Json -> string.

Lemma posted_snoc (l : list Request) (r : Request) :
  Forall posted_quantity_ok l -> posted_quantity_ok r ->
  Forall posted_quantity_ok (l ++ [r]).
Proof.
  intros Hl Hr. apply Forall_app. split; [exact Hl|].
  constructor; [exact Hr | constructor].
Qed.

(** [updateItem] leaves the new-item draft alone and posts nothing. *)
Lemma updateItem_draft_quantity {N : Type} (network : Network N) (u : Item)
    (w : World N) :
  draft_quantity_ok w -> draft_quantity_ok (snd (updateItem network u w)).
Proof.
  intros [Hq Hs]. rewrite updateItem_unfold.
  pose proof (posted_snoc _ (PutItem (id u) u) Hs I) as Hs'.
  destruct (fetch_put_item network (id u) u (net w))
    as [[reason|status text data] n']; [split; assumption|].
  destruct ((200 <=? status) && (status <=? 299)); [destruct data|];
    split; assumption.
Qed.

(** [addItem] posts the draft and leaves it or resets it to quantity 0. *)
Lemma addItem_draft_quantity {N : Type} (network : Network N) (w : World N) :
  draft_quantity_ok w -> draft_quantity_ok (snd (addItem network w)).
Proof.
  intros [Hq Hs]. rewrite addItem_unfold.
  pose proof (posted_snoc _ (PostItems (newItem (ui w))) Hs Hq) as Hs'.
  destruct (fetch_post_items network (newItem (ui w)) (net w))
    as [[reason|status text data] n']; [split; assumption|].
  destruct ((200 <=? status) && (status <=? 299)); [destruct data|];
    split; simpl; try assumption; lia.
Qed.

Lemma fetchItems_draft_quantity {N : Type} (network : Network N)
    (w : World N) :
  draft_quantity_ok w -> draft_quantity_ok (snd (fetchItems network w)).
Proof.
  intros [Hq Hs]. unfold fetchItems, fetch; simpl.
  pose proof (posted_snoc _ GetItems Hs I) as Hs'.
  destruct (fetch_get_items network (net w))
    as [[reason|status text data] n']; simpl; [split; assumption|].
  unfold ok; simpl.
  destruct ((200 <=? status) && (status <=? 299)); simpl;
    [destruct data; simpl|]; split; assumption.
Qed.

(** Every event keeps the quantity of the new-item draft, and of every
    draft posted, from being negative. *)
Lemma step_draft_quantity (w : World Server) (e : Event) :
  draft_quantity_ok w -> draft_quantity_ok (step stringify w e).
Proof.
  intros H. pose proof H as [Hq Hs]. unfold step.
  destruct e as [ |v|v|v|value|v| |v|n|n|n|v|v|v|value|v| | |message|reason];
    simpl;
    try (unfold on_edit_form; destruct (edit_form_shown w); simpl;
         [|exact H]);
    try (unfold on_card; destruct (card n w) as [item|] eqn:C; simpl;
         [|exact H]);
    try (cbv delta [onChangeEditName onChangeEditDescription
                    onChangeEditBarcode onChangeEditQuantity
                    onChangeEditNotes onChangeEdit onClickCancel];
         simpl; destruct (editingItem (ui w)); simpl; exact H);
    try (unfold handleMissingOrDamaged; simpl;
         destruct (find (fun x => id x =? id item) (items (ui w))); simpl;
         [apply updateItem_draft_quantity|]; exact H);
    try (split; simpl; [assumption || lia | assumption]).
  - apply fetchItems_draft_quantity, H.
  - apply addItem_draft_quantity, H.
  - unfold onClickSave; simpl.
    destruct (editingItem (ui w)); [apply updateItem_draft_quantity|];
      exact H.
Qed.

Lemma run_draft_quantity (es : list Event) (w : World Server) :
  draft_quantity_ok w -> draft_quantity_ok (run stringify es w).
Proof.
  revert w. induction es as [|e es IH]; intros w H; simpl; [exact H|].
  apply IH, step_draft_quantity, H.
Qed.

End QuantityFacts.

(** C8. For every number entered in the quantity input of the create form
    or of the edit form, the quantity the handler stores in the draft is
    [max(0, value)], hence not negative; the other properties of the
    draft are kept; and from the page as it starts, after every sequence
    of events, neither the new-item draft nor any draft that was posted
    has a negative quantity.  The API does not validate the quantity it
    receives:
    [POST /items] and [PUT /items/:id] store the quantity of the body as it
    is, and [update-quantity] stores the sum, negative or not. *)
Theorem quantity_clamped_by_forms_only {N : Type} (w : Dashboard.World N)
    (value : Z) :
  (let s' := Dashboard.ui (snd (Dashboard.onChangeNewQuantity value w)) in
   quantity (Dashboard.newItem s') = Z.max 0 value /\
   0 <= quantity (Dashboard.newItem s') /\
   Dashboard.newItem s'
   = set_quantity (Z.max 0 value) (Dashboard.newItem (Dashboard.ui w))) /\
  (forall e, Dashboard.editingItem (Dashboard.ui w) = Some e ->
     let s' := Dashboard.ui (snd (Dashboard.onChangeEditQuantity value w)) in
     exists e',
       Dashboard.editingItem s' = Some e' /\
       quantity (fields e') = Z.max 0 value /\
       0 <= quantity (fields e') /\
       e' = with_fields (set_quantity (Z.max 0 value)) e) /\
  (forall stringify db es,
     draft_quantity_ok (System.run stringify es (System.start db))) /\
  (forall t body,
     exists row,
       Api.post_item body (Api.online t)
       = (Api.mkResponse 201 (Api.JsonItem row), Api.online (t ++ [row])) /\
       quantity (fields row) = quantity body) /\
  (forall t i body r,
     find (fun x => id x =? i) t = Some r ->
     exists row,
       fst (Api.put_item i body (Api.online t))
       = Api.mkResponse 200 (Api.JsonItem row) /\
       quantity (fields row) = quantity body) /\
  (forall t i delta r,
     find (fun x => id x =? i) t = Some r ->
     exists row,
       fst (Api.update_quantity i delta (Api.online t))
       = Api.mkResponse 200 (Api.JsonSuccess (Some row)) /\
       quantity (fields row) = quantity (fields r) + delta).
Proof.
  split; [|split; [|split; [|split; [|split]]]].
  - simpl. repeat split. lia.
  - intros e He. unfold Dashboard.onChangeEditQuantity, Dashboard.onChangeEdit.
    simpl. rewrite He. simpl. eexists. split; [reflexivity|].
    simpl. repeat split. lia.
  - intros stringify db es. apply run_draft_quantity.
    split; simpl; [lia | constructor].
  - intros t body. eexists. split; [reflexivity | reflexivity].
  - intros t i body r Hr. eexists.
    rewrite (put_item_hit t i body r Hr). split; reflexivity.
  - intros t i delta r Hr.
    exists (Api.add_quantity delta r).
    rewrite (update_quantity_hit t i delta r Hr). split; reflexivity.
Qed.

(* ===================================================================== *)
(** * The examples of the specification, run on the embedding *)
(* ===================================================================== *)

(** Toggling [missing] on an item with [damaged] set, through the API and
    back, and toggling it again. *)
Example toggle_through_the_api :
  let item := mkItem 1 (mkFields "amp" "50 W" "b-1" 2 EmptyString
                          (Some false) (Some true) (Some "cracked")) in
  let w := System.start (Api.online [item]) in
  let run := System.run (fun _ => EmptyString) in
  Dashboard.items
    (Dashboard.ui (run [System.Mount; System.ClickMissing 0] w))
  = [mkItem 1 (mkFields "amp" "50 W" "b-1" 2 EmptyString
                 (Some true) (Some false) (Some "Updated status"))] /\
  Dashboard.items
    (Dashboard.ui
       (run [System.Mount; System.ClickMissing 0; System.ClickMissing 0] w))
  = [mkItem 1 (mkFields "amp" "50 W" "b-1" 2 EmptyString
                 (Some false) (Some false) (Some EmptyString))].
Proof. split; reflexivity. Qed.

(** The query "abc" against three items: one matches in its name up to
    case, one in its notes, one nowhere. *)
Example search_abc :
  let a := mkItem 1 (mkFields "xABCx" "d" "b-1" 1 EmptyString
                       None None None) in
  let b := mkItem 2 (mkFields "lamp" "d" "b-2" 1 EmptyString
                       None None (Some "see abc")) in
  let c := mkItem 3 (mkFields "ab c" "d" "b-3" 1 EmptyString
                       None None None) in
  Dashboard.filteredItems (Dashboard.mkState [a; b; c] "abc" None
                             Dashboard.emptyDraft)
  = [a; b].
Proof. reflexivity. Qed.

(** A quantity the API is asked to lower below zero goes below zero. *)
Example update_quantity_below_zero :
  let r := mkItem 7 (mkFields "cable" "xlr" "b-7" 5 EmptyString
                       None None None) in
  fst (Api.update_quantity 7 (-8) (Api.online [r]))
  = Api.mkResponse 200
      (Api.JsonSuccess
         (Some (mkItem 7 (mkFields "cable" "xlr" "b-7" (-3) EmptyString
                            None None None)))).
Proof. reflexivity. Qed.

(** A page in front of a store that fails: the toggle changes nothing and
    the error goes to the console. *)
Example toggle_while_store_fails :
  let item := mkItem 1 (mkFields "amp" "50 W" "b-1" 2 EmptyString
                          (Some false) (Some false) (Some EmptyString)) in
  let w := System.start (Api.online [item]) in
  let run := System.run (fun _ => "body") in
  let w1 := run [System.Mount] w in
  let w2 := run [System.StoreFails (Some "connection refused");
                 System.ClickMissing 0] w1 in
  Dashboard.ui w2 = Dashboard.ui w1 /\
  Dashboard.console w2
  = [("Error updating item:", Dashboard.ErrorText "body");
     ("Error in updateItem:", Dashboard.ErrorThrown (Dashboard.HttpError 500))].
Proof. split; reflexivity. Qed.

(* ===================================================================== *)
(** * Further properties of the API service *)
(* ===================================================================== *)

Section ApiMore.

Import Api.

(** An UPDATE that keeps identities selects, in the updated table, the
    rows it selected before. *)
Lemma find_updated (i : Z) (upd : Item -> Item) (t : Table) :
  (forall r, id (upd r) = id r) ->
  find (fun r => id r =? i) (map (fun r => if id r =? i then upd r else r) t)
  = option_map upd (find (fun r => id r =? i) t).
Proof.
  intros Hid. induction t as [|a t IH]; simpl; [reflexivity|].
  destruct (id a =? i) eqn:E.
  - rewrite Hid, E. reflexivity.
  - rewrite E. exact IH.
Qed.

(** Two UPDATEs on the same identity amount to one UPDATE with the
    composed assignment. *)
Lemma update_twice (i : Z) (f g h : Item -> Item) (t : Table) :
  (forall r, id (f r) = id r) ->
  (forall r, g (f r) = h r) ->
  map (fun r => if id r =? i then g r else r)
      (map (fun r => if id r =? i then f r else r) t)
  = map (fun r => if id r =? i then h r else r) t.
Proof.
  intros Hid Hc. rewrite map_map. apply map_ext. intros a.
  destruct (id a =? i) eqn:E.
  - rewrite Hid, E. apply Hc.
  - rewrite E. reflexivity.
Qed.

Lemma add_quantity_add (d1 d2 : Z) (r : Item) :
  add_quantity d2 (add_quantity d1 r) = add_quantity (d1 + d2) r.
Proof.
  unfold add_quantity, with_fields, set_quantity; simpl.
  rewrite Z.add_assoc. reflexivity.
Qed.

Lemma add_quantity_zero (r : Item) : add_quantity 0 r = r.
Proof.
  destruct r as [i [n d b q p m g o]].
  unfold add_quantity, with_fields, set_quantity; simpl.
  rewrite Z.add_0_r. reflexivity.
Qed.

(** Every database is a failing one or an executing one. *)
Lemma database_cases (db : Database) :
  (exists message, db = mkDatabase (table db) (Some message)) \/
  db = online (table db).
Proof.
  destruct db as [t [message|]]; [left; exists message|right]; reflexivity.
Qed.

End ApiMore.

(** X1. Each of the four handlers answers status 500 exactly when the
    store rejects the query; the body is then the driver's message and the
    table is what it was. *)
Theorem internal_error_iff_store_fails (db : Api.Database) (i delta : Z)
    (body : Fields) :
  (Api.status (fst (Api.get_items db)) = 500 <-> Api.outage db <> None) /\
  (Api.status (fst (Api.put_item i body db)) = 500
   <-> Api.outage db <> None) /\
  (Api.status (fst (Api.update_quantity i delta db)) = 500
   <-> Api.outage db <> None) /\
  (Api.status (fst (Api.post_item body db)) = 500
   <-> Api.outage db <> None) /\
  (forall message,
     Api.outage db = Some message ->
     Api.get_items db = (Api.internal_error message, db) /\
     Api.put_item i body db = (Api.internal_error message, db) /\
     Api.update_quantity i delta db = (Api.internal_error message, db) /\
     Api.post_item body db = (Api.internal_error message, db)).
Proof.
  destruct db as [t [message|]].
  - repeat split; intros; simpl in *; try discriminate; try reflexivity;
      match goal with E : Some _ = Some _ |- _ => injection E as <- end;
      reflexivity.
  - unfold Api.get_items, Api.put_item, Api.update_quantity, Api.post_item,
      Api.pool_query; simpl.
    destruct (filter (fun r => id r =? i) t); simpl;
      repeat split; try discriminate; try congruence.
Qed.

(** X2. [PUT /items/:id] and [update-quantity] never change the identity
    of a row, nor add or remove rows, whatever the request and the state
    of the store: the identities of the table are the same, each as many
    times as before (nothing is said of the order of the rows). *)
Theorem updates_keep_identities (db : Api.Database) (i delta : Z)
    (body : Fields) :
  Permutation (map id (Api.table (snd (Api.put_item i body db))))
              (map id (Api.table db)) /\
  Permutation (map id (Api.table (snd (Api.update_quantity i delta db))))
              (map id (Api.table db)) /\
  (forall k,
     In k (map id (Api.table (snd (Api.put_item i body db))))
     <-> In k (map id (Api.table db))) /\
  (forall k,
     In k (map id (Api.table (snd (Api.update_quantity i delta db))))
     <-> In k (map id (Api.table db))).
Proof.
  assert (P : map id (Api.table (snd (Api.put_item i body db)))
              = map id (Api.table db)).
  { destruct db as [t [message|]]; [reflexivity|].
    unfold Api.put_item, Api.pool_query; simpl.
    destruct (filter (fun r => id r =? i) t); simpl;
      rewrite map_map; apply map_ext; intros a;
      destruct (id a =? i); reflexivity. }
  assert (Q : map id (Api.table (snd (Api.update_quantity i delta db)))
              = map id (Api.table db)).
  { destruct db as [t [message|]]; [reflexivity|].
    unfold Api.update_quantity, Api.pool_query; simpl.
    rewrite map_map. apply map_ext. intros a.
    destruct (id a =? i); reflexivity. }
  rewrite P, Q. repeat split; auto using Permutation_refl.
Qed.

(** X3. [PUT /items/:id] is idempotent: sending the same request again
    gives the same response and leaves the store as the first one left
    it, whether the identity exists or not and whether the store fails or
    not. *)
Theorem put_item_idempotent (db : Api.Database) (i : Z) (body : Fields) :
  Api.put_item i body (snd (Api.put_item i body db))
  = Api.put_item i body db.
Proof.
  destruct (database_cases db) as [[message ->] | ->]; [reflexivity|].
  generalize (Api.table db). intros t.
  destruct (find (fun r => id r =? i) t) as [r|] eqn:F.
  - rewrite (put_item_hit t i body r F). simpl.
    erewrite put_item_hit.
    2:{ rewrite (find_updated i (fun r => mkItem (id r) body))
          by reflexivity.
        rewrite F. reflexivity. }
    rewrite (update_twice i (fun r => mkItem (id r) body)
               (fun r => mkItem (id r) body) (fun r => mkItem (id r) body))
      by reflexivity.
    reflexivity.
  - rewrite (put_item_miss t i body F). simpl.
    apply put_item_miss, F.
Qed.

(** X4. Two [update-quantity] requests on one identity compose to one
    with the sum of the deltas: same final store and same response as the
    single request; in particular a delta followed by its opposite restores
    the table. *)
Theorem update_quantity_composes (db : Api.Database) (i d1 d2 : Z) :
  Api.update_quantity i d2 (snd (Api.update_quantity i d1 db))
  = Api.update_quantity i (d1 + d2) db /\
  Api.table
    (snd (Api.update_quantity i (- d1) (snd (Api.update_quantity i d1 db))))
  = Api.table db.
Proof.
  assert (C : forall a b,
             Api.update_quantity i b (snd (Api.update_quantity i a db))
             = Api.update_quantity i (a + b) db).
  { intros a b.
    destruct (database_cases db) as [[message ->] | ->]; [reflexivity|].
    generalize (Api.table db). intros t.
    destruct (find (fun r => id r =? i) t) as [r|] eqn:F.
    - rewrite (update_quantity_hit t i a r F),
        (update_quantity_hit t i (a + b) r F). simpl.
      erewrite update_quantity_hit.
      2:{ rewrite (find_updated i (Api.add_quantity a)) by reflexivity.
          rewrite F. reflexivity. }
      rewrite add_quantity_add.
      rewrite (update_twice i (Api.add_quantity a) (Api.add_quantity b)
                 (Api.add_quantity (a + b)))
        by (reflexivity || apply add_quantity_add).
      reflexivity.
    - rewrite (update_quantity_miss t i a F),
        (update_quantity_miss t i (a + b) F). simpl.
      apply update_quantity_miss, F. }
  split; [apply C|].
  rewrite C, Z.add_opp_diag_r.
  destruct (database_cases db) as [[message E] | E]; rewrite E;
    [reflexivity|].
  unfold Api.update_quantity, Api.pool_query; simpl.
  rewrite <- (map_id (Api.table db)) at 2. apply map_ext. intros a.
  destruct (id a =? i); [apply add_quantity_zero | reflexivity].
Qed.

(** X5. A full replace discards earlier quantity changes: [PUT /items/:id]
    after an [update-quantity] on the same identity gives the response and
    the store of the PUT alone; and an [update-quantity] after a PUT on an
    existing identity answers with the body of the PUT, its quantity
    increased by the delta. *)
Theorem put_item_overrides_update_quantity (db : Api.Database) (i delta : Z)
    (body : Fields) :
  Api.put_item i body (snd (Api.update_quantity i delta db))
  = Api.put_item i body db /\
  (forall r,
     find (fun x => id x =? i) (Api.table db) = Some r ->
     Api.outage db = None ->
     fst (Api.update_quantity i delta (snd (Api.put_item i body db)))
     = Api.mkResponse 200
         (Api.JsonSuccess
            (Some (mkItem i (set_quantity (quantity body + delta) body))))).
Proof.
  split.
  - destruct (database_cases db) as [[message ->] | ->]; [reflexivity|].
    generalize (Api.table db). intros t.
    destruct (find (fun r => id r =? i) t) as [r|] eqn:F.
    + rewrite (update_quantity_hit t i delta r F),
        (put_item_hit t i body r F). simpl.
      erewrite put_item_hit.
      2:{ rewrite (find_updated i (Api.add_quantity delta)) by reflexivity.
          rewrite F. reflexivity. }
      rewrite (update_twice i (Api.add_quantity delta)
                 (fun r => mkItem (id r) body) (fun r => mkItem (id r) body))
        by reflexivity.
      reflexivity.
    + rewrite (update_quantity_miss t i delta F). simpl. reflexivity.
  - intros r F O. destruct db as [t o]. simpl in F, O. subst o.
    change (Api.mkDatabase t None) with (Api.online t).
    rewrite (put_item_hit t i body r F). cbn [snd].
    erewrite update_quantity_hit.
    2:{ rewrite (find_updated i (fun r => mkItem (id r) body))
          by reflexivity.
        rewrite F. reflexivity. }
    simpl. apply find_some in F. destruct F as [_ F].
    apply Z.eqb_eq in F. rewrite F. reflexivity.
Qed.

Lemma put_item_overrides_update_quantity_witness :
  let r := mkItem 7 (mkFields "cable" "xlr" "b-7" 5 EmptyString
                       None None None) in
  let body := mkFields "cable" "xlr 3 m" "b-7" 10 EmptyString
                None None None in
  find (fun x => id x =? 7) (Api.table (Api.online [r])) = Some r /\
  quantity
    (fields
       (match Api.json
                (fst (Api.update_quantity 7 (-4)
                        (snd (Api.put_item 7 body (Api.online [r])))))
        with
        | Api.JsonSuccess (Some row) => row
        | _ => r
        end)) = 6.
Proof.
  intros r body. split; [reflexivity|].
  rewrite (proj2 (put_item_overrides_update_quantity (Api.online [r]) 7 (-4)
                    body) r eq_refl eq_refl).
  reflexivity.
Defined.

(* ===================================================================== *)
(** * Further properties of the dashboard's handlers *)
(* ===================================================================== *)

Section ClientMore.

Import Dashboard.

Context {N : Type} (network : Network N).

(** The component's state after [updateItem], by what was delivered. *)
Lemma updateItem_ui (u : Item) (w : World N) :
  ui (snd (updateItem network u w))
  = match delivered (fst (fetch_put_item network (id u) u (net w))) with
    | Some d => mkState (spliced d (items (ui w))) (search (ui w)) None
                        (newItem (ui w))
    | None => ui w
    end.
Proof.
  rewrite updateItem_unfold.
  destruct (fetch_put_item network (id u) u (net w))
    as [[reason|status text data] n']; simpl; [reflexivity|].
  destruct ((200 <=? status) && (status <=? 299)); [destruct data|];
    reflexivity.
Qed.

(** The component's state after [addItem], by what was delivered. *)
Lemma addItem_ui (w : World N) :
  ui (snd (addItem network w))
  = match delivered
            (fst (fetch_post_items network (newItem (ui w)) (net w))) with
    | Some d => mkState (items (ui w) ++ [d]) (search (ui w))
                        (editingItem (ui w)) emptyDraft
    | None => ui w
    end.
Proof.
  rewrite addItem_unfold.
  destruct (fetch_post_items network (newItem (ui w)) (net w))
    as [[reason|status text data] n']; simpl; [reflexivity|].
  destruct ((200 <=? status) && (status <=? 299)); [destruct data|];
    reflexivity.
Qed.

(** [fetchItems], by the outcome of its request. *)
Lemma fetchItems_unfold (w : World N) :
  fetchItems network w
  = let (outcome, n') := fetch_get_items network (net w) in
    let sent' := sent w ++ [GetItems] in
    match delivered outcome with
    | Some data =>
        (inr tt,
         mkWorld (mkState data (search (ui w)) (editingItem (ui w))
                          (newItem (ui w)))
                 (console w) sent' n')
    | None =>
        (inr tt,
         mkWorld (ui w)
           (console w
            ++ [("Error fetching items:",
                 ErrorThrown
                   match outcome with
                   | Rejects reason => FetchRejection reason
                   | Resolves status _ _ =>
                       if (200 <=? status) && (status <=? 299)
                       then JsonRejection else HttpError status
                   end)])
           sent' n')
    end.
Proof.
  unfold fetchItems, fetch; simpl.
  destruct (fetch_get_items network (net w))
    as [[reason|status text data] n']; simpl; [reflexivity|].
  unfold ok; simpl.
  destruct ((200 <=? status) && (status <=? 299)); simpl;
    [destruct data|]; reflexivity.
Qed.



(** The console only grows under [updateItem] and [addItem]. *)
Lemma updateItem_console (u : Item) (w : World N) :
  exists logged, console (snd (updateItem network u w)) = console w ++ logged.
Proof.
  rewrite updateItem_unfold.
  destruct (fetch_put_item network (id u) u (net w))
    as [[reason|status text data] n']; simpl; [eexists; reflexivity|].
  destruct ((200 <=? status) && (status <=? 299)); [destruct data|]; simpl;
    try (eexists; reflexivity).
  exists []. rewrite app_nil_r. reflexivity.
Qed.

Lemma addItem_console (w : World N) :
  exists logged, console (snd (addItem network w)) = console w ++ logged.
Proof.
  rewrite addItem_unfold.
  destruct (fetch_post_items network (newItem (ui w)) (net w))
    as [[reason|status text data] n']; simpl; [eexists; reflexivity|].
  destruct ((200 <=? status) && (status <=? 299)); [destruct data|]; simpl;
    try (eexists; reflexivity).
  exists []. rewrite app_nil_r. reflexivity.
Qed.

(** A splice keeps the identities, in order. *)
Lemma spliced_ids (d : Item) (l : list Item) :
  map id (spliced d l) = map id l.
Proof.
  unfold spliced. rewrite map_map. apply map_ext. intros a.
  destruct (Z.eqb_spec (id a) (id d)) as [E|_]; [symmetry; exact E|].
  reflexivity.
Qed.

End ClientMore.

(** X6. On the success path of [addItem] (a success status and a readable
    record), the record of the response becomes the last entry of the list
    and the entries before it are the old list, in order; the draft is
    reset to the empty draft (quantity 0, both flags false); the editing
    state, the search text and the console are as before; and the draft
    was posted once. *)
Theorem addItem_success_appends {N : Type}
    (network : Dashboard.Network N) (w : Dashboard.World N)
    (createdItem : Item) (status : Z) (text : string) (n' : N)
    (Hfetch : Dashboard.fetch_post_items network
                (Dashboard.newItem (Dashboard.ui w)) (Dashboard.net w)
              = (Dashboard.Resolves status text (Some createdItem), n'))
    (Hok : 200 <= status <= 299) :
  let w' := snd (Dashboard.addItem network w) in
  Dashboard.items (Dashboard.ui w')
  = Dashboard.items (Dashboard.ui w) ++ [createdItem] /\
  Dashboard.newItem (Dashboard.ui w') = Dashboard.emptyDraft /\
  quantity (Dashboard.newItem (Dashboard.ui w')) = 0 /\
  missing (Dashboard.newItem (Dashboard.ui w')) = Some false /\
  damaged (Dashboard.newItem (Dashboard.ui w')) = Some false /\
  Dashboard.editingItem (Dashboard.ui w')
  = Dashboard.editingItem (Dashboard.ui w) /\
  Dashboard.search (Dashboard.ui w') = Dashboard.search (Dashboard.ui w) /\
  Dashboard.console w' = Dashboard.console w /\
  Dashboard.sent w'
  = Dashboard.sent w
    ++ [Dashboard.PostItems (Dashboard.newItem (Dashboard.ui w))].
Proof.
  intros w'. subst w'. rewrite addItem_unfold, Hfetch.
  replace ((200 <=? status) && (status <=? 299)) with true
    by (symmetry; apply andb_true_iff; split; apply Z.leb_le; lia).
  simpl. repeat split.
Qed.

Lemma addItem_success_appends_witness :
  let a := mkItem 4 (mkFields "lamp" EmptyString "b-4" 4 EmptyString
                       None None None) in
  let draft := mkFields "amp" EmptyString "b-9" 2 EmptyString
                 (Some false) (Some false) (Some EmptyString) in
  let w := Dashboard.mkWorld
             (Dashboard.mkState [a] EmptyString None draft) [] [] tt in
  Dashboard.items (Dashboard.ui (snd (Dashboard.addItem (echoing 201) w)))
  = [a; mkItem 1 draft] /\
  Dashboard.newItem (Dashboard.ui (snd (Dashboard.addItem (echoing 201) w)))
  = Dashboard.emptyDraft.
Proof.
  intros a draft w.
  destruct (addItem_success_appends (echoing 201) w (mkItem 1 draft) 201
              "{}" tt eq_refl ltac:(lia)) as [H1 [H2 _]].
  split; [exact H1 | exact H2].
Defined.

(** X7. [fetchItems]: when a list is delivered it replaces the whole list
    and the search text, the editing state and the draft are untouched;
    when the request fails (rejection, status outside 200 to 299 or an
    unreadable body) the state is unchanged and exactly one entry, labelled
    "Error fetching items:", is written to the console, the text of the
    response not being logged; either way one GET was sent. *)
Theorem fetchItems_replaces_or_logs {N : Type}
    (network : Dashboard.Network N) (w : Dashboard.World N) :
  let outcome := fst (Dashboard.fetch_get_items network (Dashboard.net w)) in
  let w' := snd (Dashboard.fetchItems network w) in
  Dashboard.sent w' = Dashboard.sent w ++ [Dashboard.GetItems] /\
  (forall data,
     delivered outcome = Some data ->
     Dashboard.ui w'
     = Dashboard.mkState data (Dashboard.search (Dashboard.ui w))
         (Dashboard.editingItem (Dashboard.ui w))
         (Dashboard.newItem (Dashboard.ui w)) /\
     Dashboard.console w' = Dashboard.console w) /\
  (delivered outcome = None ->
     Dashboard.ui w' = Dashboard.ui w /\
     exists e,
       Dashboard.console w'
       = Dashboard.console w
         ++ [("Error fetching items:", Dashboard.ErrorThrown e)]).
Proof.
  intros outcome w'. subst outcome w'. rewrite fetchItems_unfold.
  destruct (Dashboard.fetch_get_items network (Dashboard.net w))
    as [outcome n']; simpl.
  destruct (delivered outcome) as [data|]; simpl.
  - split; [reflexivity|]. split; [|discriminate].
    intros d E. injection E as <-. split; reflexivity.
  - split; [reflexivity|]. split; [discriminate|].
    intros _. split; [reflexivity|]. eexists. reflexivity.
Qed.

(** X8. [updateItem] and [handleMissingOrDamaged] never add, remove or
    reorder the entries of the list: whatever the network answers, the
    identities of the list, in order, are what they were. *)
Theorem updateItem_keeps_ids {N : Type}
    (network : Dashboard.Network N) (w : Dashboard.World N)
    (updatedItem : Item) (i : Z) (type : Dashboard.StatusType) :
  map id (Dashboard.items
            (Dashboard.ui (snd (Dashboard.updateItem network updatedItem w))))
  = map id (Dashboard.items (Dashboard.ui w)) /\
  map id (Dashboard.items
            (Dashboard.ui
               (snd (Dashboard.handleMissingOrDamaged network i type w))))
  = map id (Dashboard.items (Dashboard.ui w)).
Proof.
  assert (U : forall u,
             map id (Dashboard.items
                       (Dashboard.ui (snd (Dashboard.updateItem network u w))))
             = map id (Dashboard.items (Dashboard.ui w))).
  { intros u. rewrite updateItem_ui.
    destruct (delivered _) as [d|]; simpl; [apply spliced_ids|reflexivity]. }
  split; [apply U|].
  destruct (find (fun x => id x =? i) (Dashboard.items (Dashboard.ui w)))
    as [item|] eqn:F.
  - rewrite (handleMissingOrDamaged_found network i type item w F). apply U.
  - rewrite (handleMissingOrDamaged_not_found network i type w F).
    reflexivity.
Qed.

(** X9. How status toggles compose, whatever the item: toggling one flag
    and then the other leaves exactly the second flag set, with the marker
    in [notes]; toggling the same flag twice brings the flag back to the
    truth value it had, leaves the other flag false, and leaves in [notes]
    the marker or the empty string, not the notes the item had; the
    identity and the five plain fields are never touched. *)
Theorem toggles_compose (item : Item) (type : Dashboard.StatusType) :
  let switched :=
    Dashboard.toggled (other type) (Dashboard.toggled type item) in
  let twice := Dashboard.toggled type (Dashboard.toggled type item) in
  (Dashboard.flag (other type) (fields switched) = Some true /\
   Dashboard.flag type (fields switched) = Some false /\
   notes (fields switched) = Some "Updated status") /\
  (Dashboard.flag type (fields twice)
   = Some (truthy (Dashboard.flag type (fields item))) /\
   Dashboard.flag (other type) (fields twice) = Some false /\
   notes (fields twice)
   = Some (if truthy (Dashboard.flag type (fields item))
           then "Updated status" else EmptyString)) /\
  (forall r, r = switched \/ r = twice ->
     id r = id item /\
     name (fields r) = name (fields item) /\
     description (fields r) = description (fields item) /\
     barcode (fields r) = barcode (fields item) /\
     quantity (fields r) = quantity (fields item) /\
     photo_url (fields r) = photo_url (fields item)).
Proof.
  intros switched twice. subst switched twice.
  destruct type; simpl.
  - destruct (truthy (missing (fields item))); simpl;
      (split; [repeat split|]); (split; [repeat split|]);
      intros r [-> | ->]; repeat split.
  - destruct (truthy (damaged (fields item))); simpl;
      (split; [repeat split|]); (split; [repeat split|]);
      intros r [-> | ->]; repeat split.
Qed.

(** X10. [handleMissingOrDamaged] sends nothing and changes nothing when
    no item of the list has the identity; otherwise it sends exactly one
    request, a PUT to that identity carrying the record built from the
    first item that has it. *)
Theorem handleMissingOrDamaged_requests {N : Type}
    (network : Dashboard.Network N) (w : Dashboard.World N) (i : Z)
    (type : Dashboard.StatusType) :
  let found := find (fun x => id x =? i) (Dashboard.items (Dashboard.ui w)) in
  let w' := snd (Dashboard.handleMissingOrDamaged network i type w) in
  (found = None -> w' = w) /\
  (forall item,
     found = Some item ->
     id (Dashboard.toggled type item) = i /\
     Dashboard.sent w'
     = Dashboard.sent w
       ++ [Dashboard.PutItem i (Dashboard.toggled type item)]) /\
  ((forall x, In x (Dashboard.items (Dashboard.ui w)) -> id x <> i) ->
   Dashboard.sent w' = Dashboard.sent w).
Proof.
  intros found w'. subst found w'.
  destruct (find (fun x => id x =? i) (Dashboard.items (Dashboard.ui w)))
    as [item|] eqn:F.
  - rewrite (handleMissingOrDamaged_found network i type item w F).
    pose proof (find_some _ _ F) as [Hin Hid]. apply Z.eqb_eq in Hid.
    split; [discriminate|]. split.
    + intros x E. injection E as <-. split; [exact Hid|].
      rewrite updateItem_sent. simpl. rewrite Hid. reflexivity.
    + intros Hno. exfalso. exact (Hno item Hin Hid).
  - rewrite (handleMissingOrDamaged_not_found network i type w F).
    split; [reflexivity|]. split; [discriminate | reflexivity].
Qed.

(** X11. A response that cannot be used (rejection, status outside 200 to
    299, or a success status with a body [res.json()] cannot read) never
    changes the component's state, for [updateItem] and for [addItem]; and
    when something is delivered the state is the spliced, respectively the
    extended, list. *)
Theorem state_changes_only_on_delivery {N : Type}
    (network : Dashboard.Network N) (w : Dashboard.World N)
    (updatedItem : Item) :
  (delivered
     (fst (Dashboard.fetch_put_item network (id updatedItem) updatedItem
             (Dashboard.net w))) = None ->
   Dashboard.ui (snd (Dashboard.updateItem network updatedItem w))
   = Dashboard.ui w) /\
  (delivered
     (fst (Dashboard.fetch_post_items network
             (Dashboard.newItem (Dashboard.ui w)) (Dashboard.net w))) = None ->
   Dashboard.ui (snd (Dashboard.addItem network w)) = Dashboard.ui w) /\
  (forall d,
     delivered
       (fst (Dashboard.fetch_put_item network (id updatedItem) updatedItem
               (Dashboard.net w))) = Some d ->
     Dashboard.items
       (Dashboard.ui (snd (Dashboard.updateItem network updatedItem w)))
     = spliced d (Dashboard.items (Dashboard.ui w))) /\
  (forall d,
     delivered
       (fst (Dashboard.fetch_post_items network
               (Dashboard.newItem (Dashboard.ui w)) (Dashboard.net w)))
     = Some d ->
     Dashboard.items (Dashboard.ui (snd (Dashboard.addItem network w)))
     = Dashboard.items (Dashboard.ui w) ++ [d]).
Proof.
  rewrite updateItem_ui, addItem_ui.
  repeat split; intros;
    match goal with E : delivered _ = _ |- _ => rewrite E end;
    reflexivity.
Qed.

(* ===================================================================== *)
(** * Further properties of the search *)
(* ===================================================================== *)

Section SearchMore.

Import Js.

Local Open Scope string_scope.

Lemma append_assoc (a b c : string) : (a ++ b) ++ c = a ++ b ++ c.
Proof.
  induction a as [|x a IH]; simpl; [reflexivity | rewrite IH; reflexivity].
Qed.

(** A text that contains a query contains every part of the query. *)
Lemma includes_part (s a b c : string) :
  includes s (a ++ b ++ c) = true -> includes s b = true.
Proof.
  rewrite !includes_iff. intros [before [after H]].
  exists (before ++ a), (c ++ after).
  rewrite H, !append_assoc. reflexivity.
Qed.

Lemma matches_part (pre q post : string) (fs : list (option string)) :
  Dashboard.matches (pre ++ q ++ post) fs = true ->
  Dashboard.matches q fs = true.
Proof.
  unfold Dashboard.matches. rewrite !existsb_exists.
  intros [x [Hx Hi]]. exists x. split; [exact Hx|].
  rewrite !toLowerCase_app in Hi. apply (includes_part _ _ _ _ Hi).
Qed.

Lemma lower_unit_idempotent (c : ascii) :
  lower_unit (lower_unit c) = lower_unit c.
Proof.
  destruct (is_upper c) eqn:U.
  - apply (case_pair_lower c), upper_in_case_pairs, U.
  - unfold lower_unit at 2. rewrite U. unfold lower_unit. rewrite U.
    reflexivity.
Qed.

Lemma toLowerCase_idempotent (s : string) :
  toLowerCase (toLowerCase s) = toLowerCase s.
Proof.
  induction s as [|c s IH]; simpl; [reflexivity|].
  rewrite lower_unit_idempotent, IH. reflexivity.
Qed.

End SearchMore.

(** X12. On the texts of the model (code units U+0000 to U+00FF, where
    [toLowerCase] works unit by unit), extending the query never shows
    more: an item shown for a query is shown for every part of that query
    (typing further characters, at either end, can only remove items from
    the page). *)
Theorem longer_query_shows_fewer (l : list Item) (e : option Item)
    (n : Fields) (pre q post : string) (item : Item) :
  In item (Dashboard.filteredItems
             (Dashboard.mkState l (pre ++ q ++ post)%string e n)) ->
  In item (Dashboard.filteredItems (Dashboard.mkState l q e n)).
Proof.
  unfold Dashboard.filteredItems; simpl. rewrite !filter_In.
  intros [Hin Hm]. split; [exact Hin|]. apply (matches_part _ _ _ _ Hm).
Qed.

Lemma longer_query_shows_fewer_witness :
  let a := mkItem 1 (mkFields "Power Amp" "d" "b-1" 1 EmptyString
                       None None None) in
  In a (Dashboard.filteredItems
          (Dashboard.mkState [a] "er a" None Dashboard.emptyDraft)) /\
  In a (Dashboard.filteredItems
          (Dashboard.mkState [a] "r" None Dashboard.emptyDraft)).
Proof.
  intros a.
  assert (H : In a (Dashboard.filteredItems
                      (Dashboard.mkState [a] "er a" None
                         Dashboard.emptyDraft)))
    by (left; reflexivity).
  split; [exact H|].
  exact (longer_query_shows_fewer [a] None Dashboard.emptyDraft
           "e" "r" " a" a H).
Defined.

(** X13. On the texts of the model (code units U+0000 to U+00FF), the
    search does not depend on the case of the query: two queries that are
    the same text up to case, letter by letter in the table [case_pairs],
    show the same items, and so do a query and its lower-case form. *)
Theorem search_ignores_case_of_query (l : list Item) (e : option Item)
    (n : Fields) :
  (forall q q',
     same_text q q' ->
     Dashboard.filteredItems (Dashboard.mkState l q e n)
     = Dashboard.filteredItems (Dashboard.mkState l q' e n)) /\
  (forall q,
     Dashboard.filteredItems (Dashboard.mkState l (Js.toLowerCase q) e n)
     = Dashboard.filteredItems (Dashboard.mkState l q e n)).
Proof.
  assert (K : forall q q',
             Js.toLowerCase q = Js.toLowerCase q' ->
             Dashboard.filteredItems (Dashboard.mkState l q e n)
             = Dashboard.filteredItems (Dashboard.mkState l q' e n)).
  { intros q q' E. unfold Dashboard.filteredItems, Dashboard.matches; simpl.
    rewrite E. reflexivity. }
  split.
  - intros q q' H. apply K, toLowerCase_eq_iff, H.
  - intros q. apply K, toLowerCase_idempotent.
Qed.

(* ===================================================================== *)
(** * Further properties of the dashboard in front of the API *)
(* ===================================================================== *)

Section SystemMore.

Import Dashboard System.

Variable stringify : Api.Json -> string.









(** An edit in the form changes the draft being edited and nothing else,
    and the form stays where it is. *)
Lemma edit_step_local (w : World Server) (e : Event) :
  is_edit e = true ->
  items (ui (step stringify w e)) = items (ui w) /\
  search (ui (step stringify w e)) = search (ui w) /\
  newItem (ui (step stringify w e)) = newItem (ui w) /\
  console (step stringify w e) = console w /\
  sent (step stringify w e) = sent w /\
  net (step stringify w e) = net w /\
  option_map id (editingItem (ui (step stringify w e)))
  = option_map id (editingItem (ui w)).
Proof.
  intros He. unfold step.
  destruct e; try discriminate He; simpl;
    unfold on_edit_form; destruct (edit_form_shown w); simpl;
    try (repeat split; reflexivity);
    cbv delta [onChangeEditName onChangeEditDescription onChangeEditBarcode
               onChangeEditQuantity onChangeEditNotes onChangeEdit];
    simpl; destruct (editingItem (ui w)) eqn:E; simpl; rewrite ?E;
    repeat split.
Qed.

Lemma edit_form_shown_ext (w w' : World Server) :
  items (ui w') = items (ui w) ->
  search (ui w') = search (ui w) ->
  option_map id (editingItem (ui w')) = option_map id (editingItem (ui w)) ->
  edit_form_shown w' = edit_form_shown w.
Proof.
  intros Hi Hs He. unfold edit_form_shown, filteredItems.
  rewrite Hi, Hs.
  destruct (editingItem (ui w')) as [a|], (editingItem (ui w)) as [b|];
    simpl in He; try discriminate; [|reflexivity].
  injection He as ->. reflexivity.
Qed.

Lemma edits_local (edits : list Event) (w : World Server) :
  forallb is_edit edits = true ->
  items (ui (run stringify edits w)) = items (ui w) /\
  search (ui (run stringify edits w)) = search (ui w) /\
  newItem (ui (run stringify edits w)) = newItem (ui w) /\
  console (run stringify edits w) = console w /\
  sent (run stringify edits w) = sent w /\
  net (run stringify edits w) = net w /\
  edit_form_shown (run stringify edits w) = edit_form_shown w.
Proof.
  revert w. induction edits as [|e edits IH]; intros w H; simpl.
  - repeat split.
  - simpl in H. apply andb_true_iff in H. destruct H as [He H].
    destruct (edit_step_local w e He) as [A [B [C [D [E [F G]]]]]].
    destruct (IH (step stringify w e) H) as [A' [B' [C' [D' [E' [F' G']]]]]].
    rewrite A', B', C', D', E', F', G'.
    repeat split; try assumption.
    apply edit_form_shown_ext; assumption.
Qed.

(** What an event adds to the requests sent and to the console. *)
Lemma step_appends (w : World Server) (e : Event) :
  exists requests logged,
    sent (step stringify w e) = sent w ++ requests /\
    (List.length requests <= 1)%nat /\
    console (step stringify w e) = console w ++ logged.
Proof.
  assert (Same : forall w' : World Server,
            sent w' = sent w -> console w' = console w ->
            exists requests logged,
              sent w' = sent w ++ requests /\
              (List.length requests <= 1)%nat /\
              console w' = console w ++ logged).
  { intros w' Hs Hc. exists [], []. rewrite !app_nil_r. simpl.
    repeat split; [assumption | lia | assumption]. }
  assert (U : forall u,
            exists requests logged,
              sent (snd (updateItem (api stringify) u w))
              = sent w ++ requests /\
              (List.length requests <= 1)%nat /\
              console (snd (updateItem (api stringify) u w))
              = console w ++ logged).
  { intros u. destruct (updateItem_console (api stringify) u w) as [lg Hc].
    exists [PutItem (id u) u], lg. rewrite updateItem_sent.
    repeat split; [simpl; lia | exact Hc]. }
  unfold step.
  destruct e as [ |v|v|v|value|v| |v|n|n|n|v|v|v|value|v| | |message|reason];
    simpl;
    try (unfold on_edit_form; destruct (edit_form_shown w); simpl;
         [|apply Same; reflexivity]);
    try (unfold on_card; destruct (card n w) as [item|] eqn:C; simpl;
         [|apply Same; reflexivity]);
    try (cbv delta [onChangeEditName onChangeEditDescription
                    onChangeEditBarcode onChangeEditQuantity
                    onChangeEditNotes onChangeEdit onClickCancel];
         simpl; destruct (editingItem (ui w)); simpl;
         apply Same; reflexivity);
    try (unfold handleMissingOrDamaged; simpl;
         destruct (find (fun x => id x =? id item) (items (ui w))); simpl;
         [apply U | apply Same; reflexivity]);
    try (apply Same; reflexivity).
  - rewrite fetchItems_unfold.
    destruct (fetch_get_items (api stringify) (net w)) as [outcome n'].
    destruct (delivered outcome); simpl.
    + exists [GetItems], []. rewrite app_nil_r.
      repeat split; simpl; lia.
    + eexists [GetItems], _. repeat split; simpl; lia.
  - destruct (addItem_console (api stringify) w) as [lg Hc].
    exists [PostItems (newItem (ui w))], lg. rewrite addItem_sent.
    repeat split; [simpl; lia | exact Hc].
  - unfold onClickSave; simpl.
    destruct (editingItem (ui w)); [apply U | apply Same; reflexivity].
Qed.

End SystemMore.


(** X15. The edits of the form "Edit Item" are local until they are saved:
    any sequence of edits followed by "Cancel" sends no request, writes
    nothing to the console, and leaves the list, the search text, the
    new-item draft and the other side of the network as they were; when
    the form was on the page, the editing state ends cleared. *)
Theorem edits_stay_local_until_saved (stringify : Api.Json -> string)
    (edits : list System.Event) (w : Dashboard.World System.Server)
    (Hedits : forallb is_edit edits = true) :
  let w' := System.run stringify (edits ++ [System.ClickCancel]) w in
  Dashboard.items (Dashboard.ui w') = Dashboard.items (Dashboard.ui w) /\
  Dashboard.search (Dashboard.ui w') = Dashboard.search (Dashboard.ui w) /\
  Dashboard.newItem (Dashboard.ui w') = Dashboard.newItem (Dashboard.ui w) /\
  Dashboard.console w' = Dashboard.console w /\
  Dashboard.sent w' = Dashboard.sent w /\
  Dashboard.net w' = Dashboard.net w /\
  (System.edit_form_shown w = true ->
   Dashboard.editingItem (Dashboard.ui w') = None).
Proof.
  intros w'. subst w'. unfold System.run. rewrite fold_left_app. simpl.
  fold (System.run stringify edits w).
  destruct (edits_local stringify edits w Hedits)
    as [A [B [C [D [E [F G]]]]]].
  unfold System.step; simpl. unfold System.on_edit_form.
  rewrite G. destruct (System.edit_form_shown w); simpl.
  - repeat split; try assumption.
  - repeat split; try assumption. discriminate.
Qed.

Lemma edits_stay_local_until_saved_witness :
  let a := mkItem 1 (mkFields "lamp" EmptyString "b-1" 4 EmptyString
                       None None None) in
  let w := System.run (fun _ => EmptyString) [System.Mount; System.ClickEdit 0]
             (System.start (Api.online [a])) in
  let edits := [System.TypeEditName "floor lamp"; System.TypeEditQuantity 9] in
  forallb is_edit edits = true /\
  Dashboard.items
    (Dashboard.ui
       (System.run (fun _ => EmptyString) (edits ++ [System.ClickCancel]) w))
  = [a] /\
  Dashboard.sent
    (System.run (fun _ => EmptyString) (edits ++ [System.ClickCancel]) w)
  = [Dashboard.GetItems].
Proof.
  intros a w edits. split; [reflexivity|].
  destruct (edits_stay_local_until_saved (fun _ => EmptyString) edits w
              eq_refl) as [A [_ [_ [_ [E _]]]]].
  split; [rewrite A | rewrite E]; reflexivity.
Defined.

(** X16. No event sends more than one request, and nothing sent or logged
    is ever taken back: after a sequence of events the requests sent are
    the earlier ones followed by at most one request per event, and the
    console is the earlier console followed by what was logged. *)
Theorem at_most_one_request_per_event (stringify : Api.Json -> string)
    (es : list System.Event) (w : Dashboard.World System.Server) :
  exists requests logged,
    Dashboard.sent (System.run stringify es w)
    = Dashboard.sent w ++ requests /\
    (List.length requests <= List.length es)%nat /\
    Dashboard.console (System.run stringify es w)
    = Dashboard.console w ++ logged.
Proof.
  revert w. induction es as [|e es IH]; intros w; simpl.
  - exists [], []. rewrite !app_nil_r. repeat split. simpl. lia.
  - destruct (step_appends stringify w e) as [r1 [l1 [S1 [L1 C1]]]].
    destruct (IH (System.step stringify w e)) as [r2 [l2 [S2 [L2 C2]]]].
    exists (r1 ++ r2), (l1 ++ l2).
    rewrite S2, S1, C2, C1, <- !app_assoc, length_app.
    repeat split. lia.
Qed.

(** X17. "Edit" followed by "Save Changes" with nothing typed in between
    sends the item of the card exactly as the list holds it, in one PUT to
    its identity: the form does not normalise what it did not edit (a
    quantity the store holds is sent back as it is, negative or not). *)
Theorem save_without_edit_sends_item (stringify : Api.Json -> string)
    (w : Dashboard.World System.Server) (n : nat) (item : Item)
    (Hcard : System.card n w = Some item) :
  Dashboard.sent
    (System.run stringify [System.ClickEdit n; System.ClickSave] w)
  = Dashboard.sent w ++ [Dashboard.PutItem (id item) item].
Proof.
  unfold System.run, fold_left, System.step at 2. simpl.
  unfold System.on_card. rewrite Hcard. simpl.
  unfold System.step; simpl. unfold System.on_edit_form.
  assert (S : System.edit_form_shown
                (Dashboard.mkWorld
                   (Dashboard.mkState (Dashboard.items (Dashboard.ui w))
                      (Dashboard.search (Dashboard.ui w)) (Some item)
                      (Dashboard.newItem (Dashboard.ui w)))
                   (Dashboard.console w) (Dashboard.sent w) (Dashboard.net w))
              = true).
  { unfold System.edit_form_shown; simpl. apply existsb_exists.
    exists item. split; [|apply Z.eqb_refl].
    unfold System.card in Hcard. apply nth_error_In in Hcard. exact Hcard. }
  rewrite S. unfold Dashboard.onClickSave; simpl.
  rewrite updateItem_sent. reflexivity.
Qed.

Lemma save_without_edit_sends_item_witness :
  let a := mkItem 1 (mkFields "lamp" EmptyString "b-1" (-2) EmptyString
                       None None None) in
  let w := System.run (fun _ => EmptyString) [System.Mount]
             (System.start (Api.online [a])) in
  System.card 0 w = Some a /\
  Dashboard.sent
    (System.run (fun _ => EmptyString)
       [System.ClickEdit 0; System.ClickSave] w)
  = [Dashboard.GetItems; Dashboard.PutItem 1 a].
Proof.
  intros a w. split; [reflexivity|].
  exact (save_without_edit_sends_item (fun _ => EmptyString) w 0 a eq_refl).
Defined.

(** The search on letters of the Latin-1 supplement: a name that starts
    with E with acute in upper case (code unit 201) is found by a query
    that starts with e with acute in lower case (233), and a name with the
    multiplication sign (215) is not found by the division sign (247). *)
Example search_latin1 :
  let ecole := mkItem 1 (mkFields (String (ascii_of_nat 201) "cole") "d"
                           "b-1" 1 EmptyString None None None) in
  let times := mkItem 2 (mkFields (String (ascii_of_nat 215) "2") "d"
                           "b-2" 1 EmptyString None None None) in
  Dashboard.filteredItems
    (Dashboard.mkState [ecole; times] (String (ascii_of_nat 233) "COLE")
       None Dashboard.emptyDraft)
  = [ecole] /\
  Dashboard.filteredItems
    (Dashboard.mkState [ecole; times] (String (ascii_of_nat 247) EmptyString)
       None Dashboard.emptyDraft)
  = [].
Proof. split; reflexivity. Qed.
